(** * yellowstone-faithful: the CAR-backed JSON-RPC server

    A shallow embedding of [cmd-rpc-server-car.go] and of the [getBlock]
    handler, and the properties of the archive access layer that the
    specification states about them.

    Conventions of the embedding.
    - A Go function returning [(T, error)] that may return a nil error
      together with a zero value is kept as the pair it returns
      ([goret]); [None] in the second component is Go's [nil] error.
    - A Go function that returns either [(nil, err)] or [(value, nil)]
      on every path is embedded as a [result].
    - Calls into other packages (decoders, parsers, index lookups,
      base58, Zstandard) are the fields of the class [Externals].
    - A handler's effect on the connection is its [outcome]. *)

From Stdlib Require Import ZArith List String Ascii Bool Lia Floats Permutation.
Import ListNotations.
Local Open Scope string_scope.
Local Open Scope list_scope.
Local Open Scope Z_scope.

Set Implicit Arguments.
Set Warnings "-register-all".

(** ** Go values *)

Definition bytes := list Byte.byte.

(** [error] values are only ever logged or tested against [nil]. *)
Definition error := string.

Inductive result (A : Type) : Type :=
| Ok (a : A)
| Err (e : error).
Arguments Ok {A} a.
Arguments Err {A} e.

(** The pair returned by a Go function with signature [(A, error)]. *)
Definition goret (A : Type) : Type := (A * option error)%type.

(** [uint64(x)] for [x] of a signed 64-bit integer type. *)
Definition uint64 (x : Z) : Z := x mod 2 ^ 64.

(** go-cid: [type Cid struct{ str string }]; [Equals] compares the strings. *)
Definition Cid := string.
Definition Cid_Equals (a b : Cid) : bool := String.eqb a b.

(** ** JSON-RPC constants (sourcegraph/jsonrpc2) *)

Definition CodeParseError : Z := -32700.
Definition CodeInvalidParams : Z := -32602.
Definition CodeInternalError : Z := -32603.
Definition CodeMethodNotFound : Z := -32601.

(** ** Values of type [any] produced by [json.Unmarshal]

    [nil] is [JNull]; a [map[string]any] is an association list with
    unique keys, kept in one iteration order. *)

Inductive any : Type :=
| JNull
| JBool (b : bool)
| JNumber (f : float)
| JString (s : string)
| JArray (l : list any)
| JObject (m : list (string * any)).

Definition jmap := list (string * any).

Fixpoint map_get (k : string) (m : jmap) : option any :=
  match m with
  | [] => None
  | (k', v) :: m' => if String.eqb k k' then Some v else map_get k m'
  end.

(** [m[k] = v] *)
Fixpoint map_set (k : string) (v : any) (m : jmap) : jmap :=
  match m with
  | [] => [(k, v)]
  | (k', v') :: m' =>
      if String.eqb k k' then (k, v) :: m' else (k', v') :: map_set k v m'
  end.

(** [delete(m, k)] *)
Fixpoint map_delete (k : string) (m : jmap) : jmap :=
  match m with
  | [] => []
  | (k', v') :: m' =>
      if String.eqb k k' then m' else (k', v') :: map_delete k m'
  end.

(** A [json.RawMessage] taken from a parsed request, and the output of
    [json.Marshal], are valid JSON texts: both are identified with the
    document they hold.  [json.Unmarshal] into a [[]any] or a
    [map[string]any] accepts [null] (leaving the nil value) and the
    matching kind of document, and rejects every other kind. *)
Definition RawMessage := any.

Definition json_Unmarshal_slice (raw : RawMessage) : result (list any) :=
  match raw with
  | JArray l => Ok l
  | JNull => Ok []
  | _ => Err "json: cannot unmarshal into Go value of type []interface {}"
  end.

Definition json_Unmarshal_map (raw : RawMessage) : result jmap :=
  match raw with
  | JObject m => Ok m
  | JNull => Ok []
  | _ => Err "json: cannot unmarshal into Go value of type map[string]interface {}"
  end.

(** [l[i]] for an [int] index; [None] is the index-out-of-range panic. *)
Definition index {A : Type} (l : list A) (i : Z) : option A :=
  if i <? 0 then None else nth_error l (Z.to_nat i).

(** [len(l)] as an [int], for a slice and for a string. *)
Definition len {A : Type} (l : list A) : Z := Z.of_nat (List.length l).
Definition strlen (s : string) : Z := Z.of_nat (String.length s).

(** ** IPLD node kinds (package ipldbindcode), links already resolved to CIDs *)

Module DataFrame.
Record t := mk {
  Data : bytes;
  Total : Z;
  Index : Z;
  Next : list Cid
}.
End DataFrame.

Module SlotMeta.
Record t := mk {
  Parent_slot : Z;
  Blocktime : Z
}.
End SlotMeta.

Module Block.
Record t := mk {
  Slot : Z;
  Entries : list Cid;
  Meta : SlotMeta.t;
  Rewards : Cid
}.
End Block.

Module Entry.
Record t := mk {
  Hash : bytes;
  Transactions : list Cid
}.
End Entry.

Module Transaction.
Record t := mk {
  Data : DataFrame.t;
  Metadata : DataFrame.t;
  Slot : Z
}.
End Transaction.

Module Rewards.
Record t := mk {
  Data : DataFrame.t
}.
End Rewards.

(** ** Requests and responses *)

Module Request.
Record t := mk {
  Method : string;
  Params : option RawMessage
}.
End Request.

Module GetBlockRequest.
Record t := mk {
  Slot : Z
}.
End GetBlockRequest.

(** The two shapes [getBlock] stores in the [Version any] field. *)
Inductive VersionAny : Type :=
| VersionNumber (v : Z)
| VersionString (s : string).

Module GetTransactionResponse.
Record t (StatusMeta : Type) := mk {
  Blocktime : option Z;
  Meta : option StatusMeta;
  Slot : option Z;
  Transaction : list any;
  Version : VersionAny
}.
End GetTransactionResponse.

Module GetBlockResponse.
Record t (StatusMeta : Type) := mk {
  BlockHeight : Z;
  BlockTime : option Z;
  Blockhash : string;
  ParentSlot : Z;
  PreviousBlockhash : string;
  Rewards : any;
  Transactions : list (GetTransactionResponse.t StatusMeta)
}.
End GetBlockResponse.

(** What a handler does to the connection: one call of
    [conn.ReplyWithError], one call of [conn.Reply], or a panic. *)
Inductive outcome (StatusMeta : Type) : Type :=
| RepliedWithError (code : Z) (message : string)
| Replied (result : GetBlockResponse.t StatusMeta)
| Panicked.
Arguments RepliedWithError {StatusMeta} code message.
Arguments Replied {StatusMeta} result.
Arguments Panicked {StatusMeta}.

(** A call that may panic. *)
Inductive go (A : Type) : Type :=
| Ret (a : A)
| Panic.
Arguments Ret {A} a.
Arguments Panic {A}.

(** A stretch of a handler: it falls through with a value or leaves the
    handler with an outcome. *)
Inductive step (StatusMeta A : Type) : Type :=
| Continue (a : A)
| Return (o : outcome StatusMeta).
Arguments Continue {StatusMeta A} a.
Arguments Return {StatusMeta A} o.

(** ** What the server calls in other packages *)

Class Externals := {
  (** solana.Transaction, with its zero value [solana.Transaction{}] *)
  SolanaTransaction : Type;
  SolanaTransaction_zero : SolanaTransaction;
  Signatures_len : SolanaTransaction -> Z;
  IsVersioned : SolanaTransaction -> bool;
  GetVersion : SolanaTransaction -> Z;
  ToBase64 : SolanaTransaction -> result string;
  (** the value of [ParseAnyTransactionStatusMeta] *)
  StatusMeta : Type;
  (** the value of [solanablockrewards.ParseRewards] *)
  ParsedRewards : Type;
  (** solana.Hash, its zero value and its base58 [String()] *)
  SolanaHash : Type;
  SolanaHash_zero : SolanaHash;
  HashFromBytes : bytes -> SolanaHash;
  Hash_String : SolanaHash -> string;
  (** carv2.Reader: [DataReader()], then [Seek] to an offset and [util.ReadNode] *)
  DataReader : result unit;
  ReadNode : Z -> result (Cid * bytes);
  (** the three compact indexes *)
  findCidFromSlot : Z -> result Cid;
  findCidFromSignature : bytes -> result Cid;
  findOffsetFromCid : Cid -> result Z;
  (** package iplddecoders *)
  DecodeBlock : bytes -> result Block.t;
  DecodeEntry : bytes -> result Entry.t;
  DecodeTransaction : bytes -> result Transaction.t;
  DecodeDataFrame : bytes -> result DataFrame.t;
  DecodeRewards : bytes -> result Rewards.t;
  (** parsers and codecs *)
  UnmarshalBin : bytes -> result SolanaTransaction;
  decompressZstd : bytes -> result bytes;
  ParseAnyTransactionStatusMeta : bytes -> result StatusMeta;
  ParseRewards : bytes -> result ParsedRewards;
  json_Marshal : ParsedRewards -> result RawMessage;
  (** [bin.ToPascalCase], and [strings.Map(unicode.ToLower, s)] to which
      [strings.ToLower] hands a string that is not pure ASCII *)
  ToPascalCase : string -> string;
  unicode_ToLower : string -> string;
  (** conversions [uint64(f)] and [int(f)] of a float64 *)
  float64_to_uint64 : float -> Z;
  float64_to_int : float -> Z;
  (** the sentinel CID of an absent child *)
  DummyCID : Cid
}.

(** ** The server *)

Section Server.
Context `{Externals}.

Local Abbreviation Outcome := (outcome StatusMeta).
Local Abbreviation Step := (step StatusMeta).

(** *** Reading nodes from the archive *)

(** [rpcServer.GetNodeByOffset].  [Seek]'s result is dropped by the
    source.  In the branch of the CID test, [err] is the error variable
    last assigned by the successful [util.ReadNode]. *)
Definition GetNodeByOffset (wantedCid : Cid) (offset : Z) : goret bytes :=
  match DataReader with
  | Err err => ([], Some err)
  | Ok _ =>
      match ReadNode offset with
      | Err err => ([], Some err)
      | Ok (gotCid, data) =>
          let err : option error := None in
          if negb (Cid_Equals gotCid wantedCid)
          then ([], err)
          else (data, None)
      end
  end.

Definition FindCidFromSlot (slot : Z) : result Cid := findCidFromSlot slot.
Definition FindCidFromSignature (sig : bytes) : result Cid := findCidFromSignature sig.
Definition FindOffsetFromCid (cid : Cid) : result Z := findOffsetFromCid cid.

(** [rpcServer.GetNodeByCid] *)
Definition GetNodeByCid (wantedCid : Cid) : goret bytes :=
  match FindOffsetFromCid wantedCid with
  | Err err => ([], Some err)
  | Ok offset => GetNodeByOffset wantedCid offset
  end.

(** The shape shared by [GetEntryByCid], [GetTransactionByCid],
    [GetDataFrameByCid] and [GetRewardsByCid]: the node bytes, then the
    typed decoder; only [err] of [GetNodeByCid] is looked at. *)
Definition getDecodedByCid {A : Type} (decode : bytes -> result A)
    (wantedCid : Cid) : result A :=
  match GetNodeByCid wantedCid with
  | (_, Some err) => Err err
  | (data, None) => decode data
  end.

Definition GetEntryByCid : Cid -> result Entry.t := getDecodedByCid DecodeEntry.
Definition GetTransactionByCid : Cid -> result Transaction.t :=
  getDecodedByCid DecodeTransaction.
Definition GetDataFrameByCid : Cid -> result DataFrame.t :=
  getDecodedByCid DecodeDataFrame.
Definition GetRewardsByCid : Cid -> result Rewards.t := getDecodedByCid DecodeRewards.

(** [rpcServer.GetBlock] *)
Definition GetBlock (slot : Z) : result Block.t :=
  match FindCidFromSlot slot with
  | Err err => Err err
  | Ok wantedCid => getDecodedByCid DecodeBlock wantedCid
  end.

(** [rpcServer.GetTransaction] *)
Definition GetTransaction (sig : bytes) : result Transaction.t :=
  match FindCidFromSignature sig with
  | Err err => Err err
  | Ok wantedCid => getDecodedByCid DecodeTransaction wantedCid
  end.

(** *** Request parameters *)

(** [parseGetBlockRequest]: [*raw] on a nil pointer and [params[0]] on
    an empty slice panic; a first element that is not a number gives
    the pair [(nil, nil)]. *)
Definition parseGetBlockRequest (raw : option RawMessage)
    : go (goret (option GetBlockRequest.t)) :=
  match raw with
  | None => Panic
  | Some doc =>
      match json_Unmarshal_slice doc with
      | Err err => Ret (None, Some err)
      | Ok params =>
          match index params 0 with
          | None => Panic
          | Some (JNumber slotRaw) =>
              Ret (Some (GetBlockRequest.mk (float64_to_uint64 slotRaw)), None)
          | Some _ => Ret (None, None)
          end
      end
  end.

(** *** Multi-frame payloads

    The loop that the source writes out three times (transaction data,
    transaction metadata, rewards): the head's bytes, then, when
    [Total > 1], the bytes of every frame of [Next] in order. *)
Fixpoint appendFrames (dataFrameGetter : Cid -> result DataFrame.t)
    (next : list Cid) (buffer : bytes) : result bytes :=
  match next with
  | [] => Ok buffer
  | cid :: rest =>
      match dataFrameGetter cid with
      | Err err => Err err
      | Ok nextDataFrame =>
          appendFrames dataFrameGetter rest (buffer ++ DataFrame.Data nextDataFrame)
      end
  end.

Definition reassemble (dataFrameGetter : Cid -> result DataFrame.t)
    (head : DataFrame.t) : result bytes :=
  if DataFrame.Total head >? 1
  then appendFrames dataFrameGetter (DataFrame.Next head) (DataFrame.Data head)
  else Ok (DataFrame.Data head).

(** [parseTransactionAndMetaFromNode], with its three results
    [(tx, meta, error)].  In the branch of the signature test, [err] is
    the nil error of the successful [bin.UnmarshalBin]; the bare
    [return]s of the metadata block give the named results and a nil
    error. *)
Definition parseTransactionAndMetaFromNode (transactionNode : Transaction.t)
    (dataFrameGetter : Cid -> result DataFrame.t)
    : SolanaTransaction * option StatusMeta * option error :=
  match reassemble dataFrameGetter (Transaction.Data transactionNode) with
  | Err err => (SolanaTransaction_zero, None, Some err)
  | Ok transactionBuffer =>
      match UnmarshalBin transactionBuffer with
      | Err err => (SolanaTransaction_zero, None, Some err)
      | Ok tx =>
          let err : option error := None in
          if Signatures_len tx =? 0
          then (SolanaTransaction_zero, None, err)
          else
            match reassemble dataFrameGetter (Transaction.Metadata transactionNode) with
            | Err err => (SolanaTransaction_zero, None, Some err)
            | Ok metaBuffer =>
                if len metaBuffer >? 0
                then
                  match decompressZstd metaBuffer with
                  | Err _ => (tx, None, None)
                  | Ok uncompressedMeta =>
                      match ParseAnyTransactionStatusMeta uncompressedMeta with
                      | Err _ => (tx, None, None)
                      | Ok status => (tx, Some status, None)
                      end
                  end
                else (tx, None, None)
            end
      end
  end.

Definition calcBlockHeight (slot : Z) : Z := 0.

Definition rentTypeToString (typ : Z) : string :=
  if typ =? 1 then "Fee"
  else if typ =? 2 then "Rent"
  else if typ =? 3 then "Staking"
  else if typ =? 4 then "Voting"
  else "Unknown".

(** *** [getBlock]: the entries of the block

    The source starts one task per entry in an [errgroup.Group] (no
    context: every task runs to its end) and [Wait] gives the first
    error.  The tasks are embedded one after the other in the order of
    [block.Entries]; the state they share is the pair of
    [lastEntryHash] and [allTransactionNodes]. *)

Definition EntriesState : Type := (SolanaHash * list Transaction.t)%type.

(** The inner loop over [entryNode.Transactions]: a transaction that
    cannot be fetched or decoded is passed over. *)
Fixpoint appendTransactionNodes (txs : list Cid)
    (allTransactionNodes : list Transaction.t) : list Transaction.t :=
  match txs with
  | [] => allTransactionNodes
  | tx :: rest =>
      match GetTransactionByCid tx with
      | Err _ => appendTransactionNodes rest allTransactionNodes
      | Ok txNode => appendTransactionNodes rest (allTransactionNodes ++ [txNode])
      end
  end.

(** What that loop adds: the transactions of [txs] that can be fetched
    and decoded, in order. *)
Definition decodableTransactions (txs : list Cid) : list Transaction.t :=
  flat_map (fun tx => match GetTransactionByCid tx with
                      | Ok txNode => [txNode]
                      | Err _ => []
                      end) txs.

Definition entryTransactions (entryCid : Cid) : list Transaction.t :=
  match GetEntryByCid entryCid with
  | Ok entryNode => decodableTransactions (Entry.Transactions entryNode)
  | Err _ => []
  end.

(** The function handed to [wg.Go] for one entry. *)
Definition entryTask (block : Block.t) (entryIndex : Z) (entryCid : Cid)
    (st : EntriesState) : EntriesState * option error :=
  match GetEntryByCid entryCid with
  | Err err => (st, Some err)
  | Ok entryNode =>
      let lastEntryHash :=
        if entryIndex =? len (Block.Entries block) - 1
        then HashFromBytes (Entry.Hash entryNode)
        else fst st in
      ((lastEntryHash, appendTransactionNodes (Entry.Transactions entryNode) (snd st)),
       None)
  end.

Fixpoint entriesLoop (block : Block.t) (entryIndex : Z) (entries : list Cid)
    (st : EntriesState) (firstErr : option error) : EntriesState * option error :=
  match entries with
  | [] => (st, firstErr)
  | entryCid :: rest =>
      let '(st', err) := entryTask block entryIndex entryCid st in
      entriesLoop block (entryIndex + 1) rest st'
        (match firstErr with Some e => Some e | None => err end)
  end.

Definition InternalErrorReply : Outcome :=
  RepliedWithError CodeInternalError "Internal error".

Definition getBlock_entries (block : Block.t) : Step EntriesState :=
  match entriesLoop block 0 (Block.Entries block) (SolanaHash_zero, []) None with
  | (_, Some err) => Return InternalErrorReply
  | (st, None) => Continue st
  end.

(** *** [getBlock]: rewards *)

(** The body of the loop over [rewardsAsArray], on one [rewardAsMap]. *)
Definition fixReward (rewardAsMap : jmap) : jmap :=
  let m1 := map_set "commission" JNull rewardAsMap in
  let m2 :=
    match map_get "post_balance" m1 with
    | Some v => map_delete "post_balance" (map_set "postBalance" v m1)
    | None => m1
    end in
  match map_get "reward_type" m2 with
  | Some v =>
      let m3 := map_delete "reward_type" (map_set "rewardType" v m2) in
      match map_get "rewardType" m3 with
      | Some (JNumber asFloat) =>
          map_set "rewardType" (JString (rentTypeToString (float64_to_int asFloat))) m3
      | _ => m3
      end
  | None => m2
  end.

(** The loop over [rewardsAsArray]; [None] is the panic of
    [reward.(map[string]any)] on an element that is not an object. *)
Fixpoint fixRewards (rewardsAsArray : list any) : option (list any) :=
  match rewardsAsArray with
  | [] => Some []
  | JObject rewardAsMap :: rest =>
      match fixRewards rest with
      | Some rest' => Some (JObject (fixReward rewardAsMap) :: rest')
      | None => None
      end
  | _ :: _ => None
  end.

(** From the decoded map [m] to the value of [rewards]. *)
Definition rewardsFromMap (m : jmap) : Step any :=
  match map_get "rewards" m with
  | Some (JArray rewardsAsArray) =>
      match fixRewards rewardsAsArray with
      | Some fixed => Continue (JArray fixed)
      | None => Return Panicked
      end
  | Some _ => Return Panicked
  | None => Continue JNull
  end.

Definition getBlock_rewards (block : Block.t) : Step any :=
  if negb (Cid_Equals (Block.Rewards block) DummyCID)
  then
    match GetRewardsByCid (Block.Rewards block) with
    | Err _ => Return InternalErrorReply
    | Ok rewardsNode =>
        match reassemble GetDataFrameByCid (Rewards.Data rewardsNode) with
        | Err _ => Return InternalErrorReply
        | Ok buf =>
            match decompressZstd buf with
            | Err _ => Return Panicked
            | Ok uncompressedRewards =>
                match ParseRewards uncompressedRewards with
                | Err _ => Continue JNull
                | Ok actualRewards =>
                    match json_Marshal actualRewards with
                    | Err _ => Return InternalErrorReply
                    | Ok buf' =>
                        match json_Unmarshal_map buf' with
                        | Err _ => Return InternalErrorReply
                        | Ok m => rewardsFromMap m
                        end
                    end
                end
            end
        end
    end
  else Continue JNull.

(** *** [getBlock]: the transactions *)

(** [int] arithmetic wraps in 64 bits. *)
Definition int64 (x : Z) : Z := (x + 2 ^ 63) mod 2 ^ 64 - 2 ^ 63.

(** The body of the loop over [allTransactionNodes]. *)
Definition transactionResponse (transactionNode : Transaction.t)
    : Step (GetTransactionResponse.t StatusMeta) :=
  match parseTransactionAndMetaFromNode transactionNode GetDataFrameByCid with
  | (_, _, Some err) => Return InternalErrorReply
  | (tx, meta, None) =>
      let version :=
        if IsVersioned tx
        then VersionNumber (int64 (GetVersion tx - 1))
        else VersionString "legacy" in
      match ToBase64 tx with
      | Err _ => Return InternalErrorReply
      | Ok b64Tx =>
          Continue (GetTransactionResponse.mk None meta None
                      [JString b64Tx; JString "base64"] version)
      end
  end.

Fixpoint transactionsLoop (allTransactionNodes : list Transaction.t)
    (allTransactions : list (GetTransactionResponse.t StatusMeta))
    : Step (list (GetTransactionResponse.t StatusMeta)) :=
  match allTransactionNodes with
  | [] => Continue allTransactions
  | transactionNode :: rest =>
      match transactionResponse transactionNode with
      | Return o => Return o
      | Continue txResp => transactionsLoop rest (allTransactions ++ [txResp])
      end
  end.

(** *** [getBlock]: the hash of the parent block *)

Definition getBlock_previousBlockhash (block : Block.t) : Step string :=
  let parentSlot := uint64 (SlotMeta.Parent_slot (Block.Meta block)) in
  if negb (parentSlot =? 0)
  then
    match GetBlock parentSlot with
    | Err _ => Return InternalErrorReply
    | Ok parentBlock =>
        match index (Block.Entries parentBlock) (len (Block.Entries parentBlock) - 1) with
        | None => Return Panicked
        | Some lastEntryCidOfParent =>
            match GetEntryByCid lastEntryCidOfParent with
            | Err _ => Return InternalErrorReply
            | Ok parentEntryNode =>
                Continue (Hash_String (HashFromBytes (Entry.Hash parentEntryNode)))
            end
        end
    end
  else Continue "".

(** *** [getBlock] *)

(** From the loop over [allTransactionNodes] to the call of [conn.Reply]. *)
Definition getBlock_respond (block : Block.t) (blocktime : Z)
    (st : EntriesState) (rewards : any) : Outcome :=
  match transactionsLoop (snd st) [] with
  | Return o => o
  | Continue allTransactions =>
      match getBlock_previousBlockhash block with
      | Return o => o
      | Continue previousBlockhash =>
          Replied
            (GetBlockResponse.mk
               (calcBlockHeight (uint64 (Block.Slot block)))
               (Some blocktime)
               (Hash_String (fst st))
               (uint64 (SlotMeta.Parent_slot (Block.Meta block)))
               previousBlockhash
               rewards
               allTransactions)
      end
  end.

(** After [ser.GetBlock] has given [block]. *)
Definition getBlock_assemble (block : Block.t) : Outcome :=
  let blocktime := uint64 (SlotMeta.Blocktime (Block.Meta block)) in
  match getBlock_entries block with
  | Return o => o
  | Continue st =>
      match getBlock_rewards block with
      | Return o => o
      | Continue rewards => getBlock_respond block blocktime st rewards
      end
  end.

(** [rpcServer.getBlock].  [params.Slot] on the nil [params] of a
    [(nil, nil)] from [parseGetBlockRequest] panics. *)
Definition getBlock (req : Request.t) : Outcome :=
  match parseGetBlockRequest (Request.Params req) with
  | Panic => Panicked
  | Ret (_, Some err) => RepliedWithError CodeInvalidParams "Invalid params"
  | Ret (None, None) => Panicked
  | Ret (Some params, None) =>
      let slot := GetBlockRequest.Slot params in
      match GetBlock slot with
      | Err _ => RepliedWithError CodeInternalError "Failed to get block"
      | Ok block => getBlock_assemble block
      end
  end.

(** *** Replies: camel-case keys *)

(** [strings.ToLower]: ASCII strings are lowered byte by byte, any
    other string goes to [strings.Map(unicode.ToLower, s)]. *)
Definition isASCIIbyte (c : ascii) : bool := (nat_of_ascii c <? 128)%nat.

Definition lowerByte (c : ascii) : ascii :=
  let n := nat_of_ascii c in
  if ((65 <=? n) && (n <=? 90))%nat then ascii_of_nat (n + 32) else c.

Fixpoint allBytes (p : ascii -> bool) (s : string) : bool :=
  match s with
  | EmptyString => true
  | String c rest => p c && allBytes p rest
  end.

Fixpoint mapBytes (f : ascii -> ascii) (s : string) : string :=
  match s with
  | EmptyString => EmptyString
  | String c rest => String (f c) (mapBytes f rest)
  end.

Definition strings_ToLower (s : string) : string :=
  if allBytes isASCIIbyte s then mapBytes lowerByte s else unicode_ToLower s.

(** [toLowerCamelCase] *)
Definition toLowerCamelCase (v : string) : string :=
  let pascal := ToPascalCase v in
  if strlen pascal =? 0 then ""
  else if strlen pascal =? 1 then strings_ToLower pascal
  else (strings_ToLower (substring 0 1 pascal)
        ++ substring 1 (String.length pascal - 1) pascal)%string.

(** [MapToCamelCase m] is [camelObject (JObject m)].  One round of the
    loop over [m] takes the key [k] and the value [v]: [v] is stored
    under the new key, replaced by its converted copy when it is a map;
    when it is a slice, the slice stored under the new key is the one
    whose elements are overwritten in place, so the stored value shows
    the converted elements.  Elements that are not maps are left as
    they are. *)
Fixpoint camelObject (obj : any) : jmap :=
  match obj with
  | JObject m =>
      fold_left
        (fun (newMap : jmap) (kv : string * any) =>
           let k := fst kv in
           let v := snd kv in
           let newMap1 := map_set (toLowerCamelCase k) v newMap in
           let newMap2 :=
             match v with
             | JObject _ => map_set (toLowerCamelCase k) (JObject (camelObject v)) newMap1
             | _ => newMap1
             end in
           match v with
           | JArray l =>
               map_set (toLowerCamelCase k)
                 (JArray (map (fun vv => match vv with
                                         | JObject _ => JObject (camelObject vv)
                                         | _ => vv
                                         end) l))
                 newMap2
           | _ => newMap2
           end)
        m []
  | _ => []
  end.

Definition MapToCamelCase (m : jmap) : jmap := camelObject (JObject m).

(** What one round of the loop of [MapToCamelCase] leaves under the new
    key. *)
Definition storedValue (v : any) : any :=
  match v with
  | JObject _ => JObject (camelObject v)
  | JArray l =>
      JArray (map (fun vv => match vv with
                             | JObject _ => JObject (camelObject vv)
                             | _ => vv
                             end) l)
  | _ => v
  end.

(** [requestContext.Reply], from the value of [toMapAny(result)] to the
    value handed to the final [Marshal]. *)
Definition Reply (mm : result jmap) (remapCallback : option (jmap -> jmap))
    : result jmap :=
  match mm with
  | Err err => Err err
  | Ok mm =>
      let result := MapToCamelCase mm in
      match remapCallback with
      | Some f => Ok (f result)
      | None => Ok result
      end
  end.

(** The key-case law of the specification: [/^[a-z][a-zA-Z0-9]*$/]. *)
Definition isLower (c : ascii) : bool :=
  let n := nat_of_ascii c in ((97 <=? n) && (n <=? 122))%nat.
Definition isUpper (c : ascii) : bool :=
  let n := nat_of_ascii c in ((65 <=? n) && (n <=? 90))%nat.
Definition isDigit (c : ascii) : bool :=
  let n := nat_of_ascii c in ((48 <=? n) && (n <=? 57))%nat.
Definition isAlnum (c : ascii) : bool := isLower c || isUpper c || isDigit c.

Definition matchesKeyCase (key : string) : bool :=
  match key with
  | EmptyString => false
  | String c rest => isLower c && allBytes isAlnum rest
  end.

(** Every key of [v], at every depth, obeys the key-case law. *)
Fixpoint allKeysMatch (v : any) : bool :=
  match v with
  | JObject m => forallb (fun kv => matchesKeyCase (fst kv) && allKeysMatch (snd kv)) m
  | JArray l => forallb allKeysMatch l
  | _ => true
  end.

(** A non-empty string of ASCII letters and digits that starts with a
    letter. *)
Definition pascalShaped (s : string) : bool :=
  match s with
  | EmptyString => false
  | String c rest => (isLower c || isUpper c) && allBytes isAlnum rest
  end.

(** The maps that [MapToCamelCase] reaches: the map itself, the maps
    that are values of a reached map, and the maps that are elements of
    a slice that is a value of a reached map.  In each of them every
    key is the camel-case form of some key. *)
Inductive camelized : any -> Prop :=
| camelized_null : camelized JNull
| camelized_bool (b : bool) : camelized (JBool b)
| camelized_number (f : float) : camelized (JNumber f)
| camelized_string (s : string) : camelized (JString s)
| camelized_array (l : list any) :
    (forall m, In (JObject m) l -> camelized (JObject m)) ->
    camelized (JArray l)
| camelized_object (m : jmap) :
    (forall k v, In (k, v) m ->
                 (exists k0, k = toLowerCamelCase k0) /\ camelized v) ->
    camelized (JObject m).

End Server.

(** ** A small archive

    One instance of [Externals] over a hand-made CAR file, used to run
    the server on concrete requests.  A node's payload is a single tag
    byte; the decoders map tags to nodes. *)

Module Demo.
Import Byte.

(** Truncation of a finite non-negative float64. *)
Definition truncate (f : float) : Z :=
  match Prim2SF f with
  | S754_finite false m e =>
      if 0 <=? e then Z.pos m * 2 ^ e else Z.pos m / 2 ^ (- e)
  | _ => 0
  end.

Definition upperByte (c : ascii) : ascii :=
  let n := nat_of_ascii c in
  if ((97 <=? n) && (n <=? 122))%nat then ascii_of_nat (n - 32) else c.

Definition isSeparator (c : ascii) : bool :=
  Ascii.eqb c "_" || Ascii.eqb c "-" || Ascii.eqb c " ".

(** Stand-in for [bin.ToPascalCase]: the separators [_], [-] and the
    blank are dropped and the byte after one, like the first byte, is
    put in upper case. *)
Fixpoint pascal (capNext : bool) (s : string) : string :=
  match s with
  | EmptyString => EmptyString
  | String c rest =>
      if isSeparator c then pascal true rest
      else String (if capNext then upperByte c else c) (pascal false rest)
  end.

Definition lookup {A : Type} (eqb : A -> A -> bool) {B : Type}
    (k : A) (table : list (A * B)) (notFound : error) : result B :=
  match find (fun kv => eqb k (fst kv)) table with
  | Some kv => Ok (snd kv)
  | None => Err notFound
  end.

Definition dummy : Cid := "dummy".

Definition head1 (tag : byte) : DataFrame.t := DataFrame.mk [tag] 1 0 [].
Definition noData : DataFrame.t := DataFrame.mk [] 1 0 [].

(** The records of the CAR file by offset: the CID read there and the
    payload.  The record at offset 99 carries another CID than the one
    the CID-to-offset index files under that offset. *)
Definition car : list (Z * (Cid * bytes)) :=
  [ (0, ("block1", [x01]));  (1, ("entry1", [xe1]));  (2, ("tx1", [xa1]));
    (3, ("block2", [x02]));  (4, ("rewards2", [xb2]));
    (5, ("block3", [x03]));  (6, ("rewards3", [xb3]));
    (7, ("block6", [x06]));  (8, ("entry6", [xe6]));  (9, ("tx6", [xa6]));
    (10, ("frame7", [xf7])); (11, ("block8", [x08])); (12, ("rewards8", [xb8]));
    (13, ("block9", [x09])); (14, ("rewards9", [xb9]));
    (15, ("block10", [x10])); (16, ("block11", [x11])); (17, ("block12", [x12]));
    (18, ("rewards12", [xbc]));
    (99, ("other", [xff])) ].

Definition offsets : list (Cid * Z) :=
  [ ("block1", 0); ("entry1", 1); ("tx1", 2); ("block2", 3); ("rewards2", 4);
    ("block3", 5); ("rewards3", 6); ("block6", 7); ("entry6", 8); ("tx6", 9);
    ("frame7", 10); ("block8", 11); ("rewards8", 12); ("block9", 13);
    ("rewards9", 14); ("block10", 15); ("block11", 16); ("block12", 17);
    ("rewards12", 18); ("stale", 99) ].

(** The slot index.  Slot 1: one entry, one of whose two transactions
    is not in the archive, no rewards, block time -1.  Slot 2: rewards
    that the rewards parser rejects.  Slot 3: rewards that parse to an
    object without a "rewards" key.  Slot 4: not in the index.  Slot 5:
    filed under the CID of the record at offset 99.  Slot 6: a
    transaction without signatures.  Slot 8: rewards, and slot 1 as
    parent.  Slot 9: rewards that do not decompress.  Slot 10: a second
    entry that is not in the archive.  Slot 11: a rewards node that is
    not in the archive.  Slot 12: a second rewards frame that is not in
    the archive. *)
Definition slots : list (Z * Cid) :=
  [ (1, "block1"); (2, "block2"); (3, "block3"); (5, "stale");
    (6, "block6"); (8, "block8"); (9, "block9"); (10, "block10");
    (11, "block11"); (12, "block12") ].

Definition decodeBlock (data : bytes) : result Block.t :=
  match data with
  | [x01] => Ok (Block.mk 1 ["entry1"] (SlotMeta.mk 0 (-1)) dummy)
  | [x02] => Ok (Block.mk 2 ["entry1"] (SlotMeta.mk 0 1700000000) "rewards2")
  | [x03] => Ok (Block.mk 3 ["entry1"] (SlotMeta.mk 0 1700000001) "rewards3")
  | [x06] => Ok (Block.mk 6 ["entry6"] (SlotMeta.mk 0 1700000002) dummy)
  | [x08] => Ok (Block.mk 8 ["entry1"] (SlotMeta.mk 1 1700000003) "rewards8")
  | [x09] => Ok (Block.mk 9 ["entry1"] (SlotMeta.mk 0 1700000004) "rewards9")
  | [x10] => Ok (Block.mk 10 ["entry1"; "lost"] (SlotMeta.mk 0 1700000005) dummy)
  | [x11] => Ok (Block.mk 11 ["entry1"] (SlotMeta.mk 0 1700000006) "lostRewards")
  | [x12] => Ok (Block.mk 12 ["entry1"] (SlotMeta.mk 0 1700000007) "rewards12")
  | _ => Err "not a Block"
  end.

Definition decodeEntry (data : bytes) : result Entry.t :=
  match data with
  | [xe1] => Ok (Entry.mk [x68; x31] ["tx1"; "missing"])
  | [xe6] => Ok (Entry.mk [x68; x36] ["tx6"])
  | _ => Err "not an Entry"
  end.

Definition decodeTransaction (data : bytes) : result Transaction.t :=
  match data with
  | [xa1] => Ok (Transaction.mk (head1 x0a) noData 1)
  | [xa6] => Ok (Transaction.mk (head1 x00) noData 6)
  | _ => Err "not a Transaction"
  end.

Definition decodeDataFrame (data : bytes) : result DataFrame.t :=
  match data with
  | [xf7] => Ok (DataFrame.mk [x0b] 3 1 [])
  | _ => Err "not a DataFrame"
  end.

Definition decodeRewards (data : bytes) : result Rewards.t :=
  match data with
  | [xb2] => Ok (Rewards.mk (head1 xb2))
  | [xb3] => Ok (Rewards.mk (head1 xb3))
  | [xb8] => Ok (Rewards.mk (head1 xb8))
  | [xb9] => Ok (Rewards.mk (head1 xde))
  | [xbc] => Ok (Rewards.mk (DataFrame.mk [xbc] 2 0 ["lostFrame"]))
  | _ => Err "not a Rewards"
  end.

(** A transaction of the demo is its number of signatures. *)
Definition unmarshalBin (data : bytes) : result Z :=
  match data with
  | [x0a] => Ok 1
  | [x0a; x0b] => Ok 2
  | [x00] => Ok 0
  | _ => Err "short buffer"
  end.

Definition parseRewards (data : bytes) : result any :=
  match data with
  | [xb3] => Ok (JObject [("num_partitions", JNull)])
  | [xb8] =>
      Ok (JObject [("rewards",
                    JArray [JObject [("pubkey", JString "validator");
                                     ("post_balance", JNumber 5);
                                     ("reward_type", JNumber 3)]])])
  | _ => Err "proto: cannot parse invalid wire-format data"
  end.

#[export] Instance demo : Externals := {|
  SolanaTransaction := Z;
  SolanaTransaction_zero := 0;
  Signatures_len := fun tx => tx;
  IsVersioned := fun _ => false;
  GetVersion := fun _ => 0;
  ToBase64 := fun tx => if tx =? 0 then Err "signature verification failed" else Ok "AQID";
  StatusMeta := string;
  ParsedRewards := any;
  SolanaHash := bytes;
  SolanaHash_zero := [];
  HashFromBytes := fun b => b;
  Hash_String := fun h => string_of_list_byte h;
  DataReader := Ok tt;
  ReadNode := fun offset => lookup Z.eqb offset car "unexpected EOF";
  findCidFromSlot := fun slot => lookup Z.eqb slot slots "not found";
  findCidFromSignature := fun _ => Err "not found";
  findOffsetFromCid := fun cid => lookup String.eqb cid offsets "not found";
  DecodeBlock := decodeBlock;
  DecodeEntry := decodeEntry;
  DecodeTransaction := decodeTransaction;
  DecodeDataFrame := decodeDataFrame;
  DecodeRewards := decodeRewards;
  UnmarshalBin := unmarshalBin;
  decompressZstd := fun b => match b with [xde] => Err "zstd: bad magic" | _ => Ok b end;
  ParseAnyTransactionStatusMeta := fun _ => Err "no metadata";
  ParseRewards := parseRewards;
  json_Marshal := fun r => Ok r;
  ToPascalCase := pascal true;
  unicode_ToLower := fun s => s;
  float64_to_uint64 := truncate;
  float64_to_int := truncate;
  DummyCID := dummy
|}.

Definition getBlockRequest (params : list any) : Request.t :=
  Request.mk "getBlock" (Some (JArray params)).

(** Nodes and replies of the demo archive. *)
Definition tx1 : Transaction.t := Transaction.mk (head1 x0a) noData 1.
Definition tx6 : Transaction.t := Transaction.mk (head1 x00) noData 6.
Definition block2 : Block.t :=
  Block.mk 2 ["entry1"] (SlotMeta.mk 0 1700000000) "rewards2".
Definition block3 : Block.t :=
  Block.mk 3 ["entry1"] (SlotMeta.mk 0 1700000001) "rewards3".
Definition block8 : Block.t :=
  Block.mk 8 ["entry1"] (SlotMeta.mk 1 1700000003) "rewards8".
Definition block10 : Block.t :=
  Block.mk 10 ["entry1"; "lost"] (SlotMeta.mk 0 1700000005) dummy.
Definition block11 : Block.t :=
  Block.mk 11 ["entry1"] (SlotMeta.mk 0 1700000006) "lostRewards".
Definition block12 : Block.t :=
  Block.mk 12 ["entry1"] (SlotMeta.mk 0 1700000007) "rewards12".
Definition entry1 : Entry.t := Entry.mk [x68; x31] ["tx1"; "missing"].
Definition rewards8 : any :=
  JArray [JObject [("pubkey", JString "validator"); ("commission", JNull);
                   ("postBalance", JNumber 5); ("rewardType", JString "Staking")]].

Definition txResponse1 : GetTransactionResponse.t string :=
  GetTransactionResponse.mk None None None
    [JString "AQID"; JString "base64"] (VersionString "legacy").

Definition response1 (blockTime parentSlot : Z) (previousBlockhash : string)
    (rewards : any) : GetBlockResponse.t string :=
  GetBlockResponse.mk 0 (Some blockTime) "h1" parentSlot previousBlockhash rewards
    [txResponse1].

(** A frame head that declares three frames and links one. *)
Definition shortHead : DataFrame.t := DataFrame.mk [x0a] 3 0 ["frame7"].

(** A map in a slice in a slice, and the same map in a slice. *)
Definition nestedTwice : jmap :=
  [("outer_key", JArray [JArray [JObject [("inner_key", JNull)]]])].
Definition nestedOnce : jmap :=
  [("outer_key", JArray [JObject [("inner_key", JNull)]])].

End Demo.

(** ** The front of the server: requests, dispatch, command line *)

Module GetTransactionRequest.
Record t := mk {
  Signature : bytes
}.
End GetTransactionRequest.

(** What [newRPC] does with a request body: the Parse error reply with
    HTTP status 400, or the call of [handler.Handle]. *)
Inductive rpcOutcome (A : Type) : Type :=
| BadRequest (code : Z) (message : string)
| Handled (a : A).
Arguments BadRequest {A} code message.
Arguments Handled {A} a.

(** The error returned by the command's [Action]: a [cli.Exit] with
    its exit code, or any other error. *)
Inductive cliError : Type :=
| cli_Exit (message : string) (exitCode : Z)
| otherError (err : error).

(** [fmt.Errorf("<prefix>: %w", err)], as the text of the new error. *)
Definition wrapError (prefix : string) (err : error) : error :=
  (prefix ++ ": " ++ err)%string.

(** [c.Args().Get(n)]: the empty string when there is no such argument. *)
Definition Args_Get (args : list string) (n : nat) : string := nth n args "".

Section Frontend.
Context `{Externals}.

(** [solana.SignatureFromBase58], and [json.Unmarshal] of a request
    body into a [jsonrpc2.Request]. *)
Variable SignatureFromBase58 : string -> result bytes.
Variable json_Unmarshal_request : bytes -> result Request.t.

(** The handler [rpcServer.getTransaction] and what it does to the
    connection. *)
Variable TransactionOutcome : Type.
Variable getTransaction : Request.t -> TransactionOutcome.


(** [rpcServer.Handle] *)
Definition Handle (req : Request.t) : outcome StatusMeta + TransactionOutcome :=
  if String.eqb (Request.Method req) "getBlock" then inl (getBlock req)
  else if String.eqb (Request.Method req) "getTransaction" then inr (getTransaction req)
  else inl (RepliedWithError CodeMethodNotFound "Method not found").

(** [newRPC], from the result of [ioutil.ReadAll] on the request body. *)
Definition newRPC (body : result bytes)
    : rpcOutcome (outcome StatusMeta + TransactionOutcome) :=
  match body with
  | Err _ => BadRequest CodeParseError "Parse error"
  | Ok body =>
      match json_Unmarshal_request body with
      | Err _ => BadRequest CodeParseError "Parse error"
      | Ok rpcRequest => Handled (Handle rpcRequest)
      end
  end.

End Frontend.

Section CommandLine.

(** The files and indexes the command opens, and [newRPCServer], which
    returns when the HTTP server stops. *)
Variables CarReader File CompactIndex CompactIndex36 : Type.
Variable carv2_OpenReader : string -> result CarReader.
Variable os_Open : string -> result File.
Variable compactindex_Open : File -> result CompactIndex.
Variable compactindex36_Open : File -> result CompactIndex36.
Variable newRPCServer :
  string -> CarReader -> CompactIndex -> CompactIndex36 -> CompactIndex36 -> option error.

(** The [Action] of [newCmd_rpcServerCar]; [None] is the nil error. *)
Definition Action (listenOn : string) (args : list string) : option cliError :=
  let carFilepath := Args_Get args 0 in
  if String.eqb carFilepath "" then Some (cli_Exit "Must provide a CAR filepath" 1)
  else
  let cidToOffsetIndexFilepath := Args_Get args 1 in
  if String.eqb cidToOffsetIndexFilepath ""
  then Some (cli_Exit "Must provide a CID-to-offset index filepath" 1)
  else
  let slotToCidIndexFilepath := Args_Get args 2 in
  if String.eqb slotToCidIndexFilepath ""
  then Some (cli_Exit "Must provide a slot-to-CID index filepath" 1)
  else
  let sigToCidIndexFilepath := Args_Get args 3 in
  if String.eqb sigToCidIndexFilepath ""
  then Some (cli_Exit "Must provide a signature-to-CID index filepath" 1)
  else
  match carv2_OpenReader carFilepath with
  | Err err => Some (otherError (wrapError "failed to open CAR file" err))
  | Ok carReader =>
  match os_Open cidToOffsetIndexFilepath with
  | Err err => Some (otherError (wrapError "failed to open index file" err))
  | Ok cidToOffsetIndexFile =>
  match compactindex_Open cidToOffsetIndexFile with
  | Err err => Some (otherError (wrapError "failed to open index" err))
  | Ok cidToOffsetIndex =>
  match os_Open slotToCidIndexFilepath with
  | Err err => Some (otherError (wrapError "failed to open index file" err))
  | Ok slotToCidIndexFile =>
  match compactindex36_Open slotToCidIndexFile with
  | Err err => Some (otherError (wrapError "failed to open index" err))
  | Ok slotToCidIndex =>
  match os_Open sigToCidIndexFilepath with
  | Err err => Some (otherError (wrapError "failed to open index file" err))
  | Ok sigToCidIndexFile =>
  match compactindex36_Open sigToCidIndexFile with
  | Err err => Some (otherError (wrapError "failed to open index" err))
  | Ok sigToCidIndex =>
      option_map otherError
        (newRPCServer listenOn carReader cidToOffsetIndex slotToCidIndex sigToCidIndex)
  end end end end end end end.

End CommandLine.

(** The keys of a map. *)
Definition keys (m : jmap) : list string := map fst m.

Section CamelLoop.
Context `{Externals}.

(** The loop of [MapToCamelCase], from any [newMap]. *)
Definition camelLoop (m newMap : jmap) : jmap :=
  fold_left (fun newMap kv =>
               map_set (toLowerCamelCase (fst kv)) (storedValue (snd kv)) newMap)
    m newMap.

End CamelLoop.

(** ** A second small archive and a command line

    The demo archive with a signature index, a block without entries at
    slot 20 and a metadata parser that accepts one payload; and
    stand-ins for the files that the command opens. *)

Module DemoFront.
Import Byte.

Definition signature1 : bytes := [x51].

Definition front : Externals := {|
  SolanaTransaction := Z;
  SolanaTransaction_zero := 0;
  Signatures_len := fun tx => tx;
  IsVersioned := fun _ => false;
  GetVersion := fun _ => 0;
  ToBase64 := fun tx => if tx =? 0 then Err "signature verification failed" else Ok "AQID";
  StatusMeta := string;
  ParsedRewards := any;
  SolanaHash := bytes;
  SolanaHash_zero := [];
  HashFromBytes := fun b => b;
  Hash_String := fun h => string_of_list_byte h;
  DataReader := Ok tt;
  ReadNode := fun offset =>
    if offset =? 20 then Ok ("block20", [x20])
    else Demo.lookup Z.eqb offset Demo.car "unexpected EOF";
  findCidFromSlot := fun slot =>
    if slot =? 20 then Ok "block20"
    else Demo.lookup Z.eqb slot Demo.slots "not found";
  findCidFromSignature := fun sig =>
    match sig with
    | [x51] => Ok "tx1"
    | _ => Err "not found"
    end;
  findOffsetFromCid := fun cid =>
    if String.eqb cid "block20" then Ok 20
    else Demo.lookup String.eqb cid Demo.offsets "not found";
  DecodeBlock := fun data =>
    match data with
    | [x20] => Ok (Block.mk 20 [] (SlotMeta.mk 0 7) Demo.dummy)
    | _ => Demo.decodeBlock data
    end;
  DecodeEntry := Demo.decodeEntry;
  DecodeTransaction := Demo.decodeTransaction;
  DecodeDataFrame := Demo.decodeDataFrame;
  DecodeRewards := Demo.decodeRewards;
  UnmarshalBin := Demo.unmarshalBin;
  decompressZstd := fun b => match b with [xde] => Err "zstd: bad magic" | _ => Ok b end;
  ParseAnyTransactionStatusMeta := fun b =>
    match b with
    | [x4d] => Ok "status"
    | _ => Err "no metadata"
    end;
  ParseRewards := Demo.parseRewards;
  json_Marshal := fun r => Ok r;
  ToPascalCase := Demo.pascal true;
  unicode_ToLower := fun s => s;
  float64_to_uint64 := Demo.truncate;
  float64_to_int := Demo.truncate;
  DummyCID := Demo.dummy
|}.

Definition block20 : Block.t := Block.mk 20 [] (SlotMeta.mk 0 7) Demo.dummy.

Definition response20 : GetBlockResponse.t string :=
  GetBlockResponse.mk 0 (Some 7) "" 0 "" JNull [].

(** A transaction node with one frame of data and one of metadata. *)
Definition txWithMeta : Transaction.t :=
  Transaction.mk (Demo.head1 x0a) (Demo.head1 x4d) 1.

(** A reward as the rewards parser gives it. *)
Definition reward1 : jmap :=
  [("pubkey", JString "validator"); ("lamports", JNumber 10);
   ("post_balance", JNumber 5); ("reward_type", JNumber 3)].

(** The files of the command line: the CAR and the good index files
    open; "missing.idx" does not exist, "broken.idx" is not an index. *)
Definition openReader (path : string) : result string :=
  if String.eqb path "ledger.car" then Ok path else Err "no such file".
Definition openFile (path : string) : result string :=
  if String.eqb path "missing.idx" then Err "no such file" else Ok path.
Definition openIndex (file : string) : result string :=
  if String.eqb file "broken.idx" then Err "bad magic" else Ok file.
Definition serve (listenOn car cidToOffset slotToCid sigToCid : string) : option error :=
  Some "listen: address already in use".

Definition action : string -> list string -> option cliError :=
  Action openReader openFile openIndex openIndex serve.

End DemoFront.

(** * Properties *)

Section ReaderProperties.
Context `{Externals}.

Lemma GetNodeByOffset_mismatch (wantedCid gotCid : Cid) (offset : Z) (data : bytes) :
  DataReader = Ok tt ->
  ReadNode offset = Ok (gotCid, data) ->
  Cid_Equals gotCid wantedCid = false ->
  GetNodeByOffset wantedCid offset = ([], None).
Proof.
  intros Hdr Hrd Hne. unfold GetNodeByOffset.
  rewrite Hdr, Hrd, Hne. reflexivity.
Qed.

(** The bytes that come with a nil error are those of a record whose
    CID is the wanted one, or none at all. *)
Lemma GetNodeByOffset_payload (wantedCid : Cid) (offset : Z) (data : bytes) :
  GetNodeByOffset wantedCid offset = (data, None) ->
  data = [] \/ ReadNode offset = Ok (wantedCid, data).
Proof.
  unfold GetNodeByOffset.
  destruct DataReader as [u|e]; [|discriminate].
  destruct (ReadNode offset) as [[gotCid d]|e]; [|discriminate].
  destruct (Cid_Equals gotCid wantedCid) eqn:Heq; simpl; intros Hret.
  - apply String.eqb_eq in Heq. injection Hret as <-. subst. now right.
  - injection Hret as <-. now left.
Qed.

Lemma appendFrames_ok (getter : Cid -> result DataFrame.t) (next : list Cid) :
  forall (buffer out : bytes),
    appendFrames getter next buffer = Ok out <->
    exists frames : list DataFrame.t,
      Forall2 (fun cid frame => getter cid = Ok frame) next frames /\
      out = buffer ++ List.concat (map DataFrame.Data frames).
Proof.
  induction next as [|cid rest IH]; intros buffer out; simpl.
  - split.
    + intros [= <-]. exists []. split; [constructor|]. simpl. now rewrite app_nil_r.
    + intros (frames & Hall & ->). inversion Hall; subst. simpl. now rewrite app_nil_r.
  - destruct (getter cid) as [frame|e] eqn:Hget.
    + rewrite IH. split.
      * intros (frames & Hall & ->). exists (frame :: frames). split.
        -- now constructor.
        -- simpl. now rewrite app_assoc.
      * intros (frames & Hall & ->). inversion Hall as [|? f ? fs Hf Hrest]; subst.
        assert (f = frame) by congruence. subst f.
        exists fs. split; [assumption|]. simpl. now rewrite app_assoc.
    + split; [discriminate|].
      intros (frames & Hall & _). inversion Hall; subst. congruence.
Qed.

Lemma appendFrames_err (getter : Cid -> result DataFrame.t) (next : list Cid) :
  forall (buffer : bytes) (cid : Cid) (e : error),
    In cid next -> getter cid = Err e ->
    exists e', appendFrames getter next buffer = Err e'.
Proof.
  induction next as [|c rest IH]; intros buffer cid e Hin Hget; simpl in *.
  - contradiction.
  - destruct (getter c) as [frame|e0] eqn:Hc.
    + destruct Hin as [->|Hin]; [congruence|]. now apply IH with cid e.
    + now exists e0.
Qed.

(** C3.  For a head with [Total > 1] the frames of [Next] are fetched
    and appended in order, and the reassembly succeeds exactly when
    every one of them can be fetched, with the head's bytes followed by
    the frames' bytes; the number of frames is not compared with
    [Total]. *)
Theorem reassemble_multi_frame (getter : Cid -> result DataFrame.t)
    (head : DataFrame.t) (out : bytes) :
  DataFrame.Total head > 1 ->
  (reassemble getter head = Ok out <->
   exists frames : list DataFrame.t,
     Forall2 (fun cid frame => getter cid = Ok frame) (DataFrame.Next head) frames /\
     out = DataFrame.Data head ++ List.concat (map DataFrame.Data frames)).
Proof.
  intros Htotal. unfold reassemble.
  replace (DataFrame.Total head >? 1) with true by (symmetry; apply Z.gtb_lt; lia).
  apply appendFrames_ok.
Qed.

End ReaderProperties.

(** ** The [getBlock] handler *)

Section GetBlockProperties.
Context `{Externals}.

Local Abbreviation Outcome := (outcome StatusMeta).

Lemma index_last_cons {A : Type} (x y : A) (l : list A) :
  index (x :: y :: l) (len (x :: y :: l) - 1) = index (y :: l) (len (y :: l) - 1).
Proof.
  unfold index, len. cbn [List.length].
  replace (Z.of_nat (S (S (List.length l))) - 1 <? 0) with false
    by (symmetry; apply Z.ltb_ge; lia).
  replace (Z.of_nat (S (List.length l)) - 1 <? 0) with false
    by (symmetry; apply Z.ltb_ge; lia).
  replace (Z.to_nat (Z.of_nat (S (S (List.length l))) - 1)) with (S (List.length l)) by lia.
  replace (Z.to_nat (Z.of_nat (S (List.length l)) - 1)) with (List.length l) by lia.
  reflexivity.
Qed.

(** An error, once recorded, is what [Wait] returns. *)
Lemma entriesLoop_firstErr (block : Block.t) (entries : list Cid) :
  forall (i : Z) (st : EntriesState) (e : error),
    snd (entriesLoop block i entries st (Some e)) = Some e.
Proof.
  induction entries as [|c rest IH]; intros i st e; simpl.
  - reflexivity.
  - destruct (entryTask block i c st) as [st' err]. apply IH.
Qed.

Lemma entryTask_err (block : Block.t) (i : Z) (c : Cid) (st : EntriesState) (e : error) :
  GetEntryByCid c = Err e -> entryTask block i c st = (st, Some e).
Proof. intros Hc. unfold entryTask. now rewrite Hc. Qed.

Lemma entriesLoop_err (block : Block.t) (entries : list Cid) :
  forall (i : Z) (st : EntriesState) (firstErr : option error) (c : Cid) (e : error),
    In c entries -> GetEntryByCid c = Err e ->
    exists e', snd (entriesLoop block i entries st firstErr) = Some e'.
Proof.
  induction entries as [|c0 rest IH]; intros i st firstErr c e Hin Hc; simpl in *.
  - contradiction.
  - destruct (entryTask block i c0 st) as [st' err] eqn:Htask.
    destruct Hin as [->|Hin].
    + rewrite entryTask_err with (e := e) in Htask by assumption. injection Htask as <- <-.
      destruct firstErr as [e0|]; eexists; apply entriesLoop_firstErr.
    + now apply IH with c e.
Qed.

(** After a run without error, [lastEntryHash] is the hash of the entry
    at index [len(block.Entries)-1]. *)
Lemma entriesLoop_last (block : Block.t) (entries : list Cid) :
  forall (i : Z) (st st' : EntriesState) (firstErr : option error) (c : Cid),
    i + len entries = len (Block.Entries block) ->
    entriesLoop block i entries st firstErr = (st', None) ->
    index entries (len entries - 1) = Some c ->
    exists entryNode,
      GetEntryByCid c = Ok entryNode /\
      fst st' = HashFromBytes (Entry.Hash entryNode).
Proof.
  induction entries as [|c0 rest IH]; intros i st st' firstErr c Hlen Hloop Hidx.
  - discriminate.
  - cbn [entriesLoop] in Hloop.
    destruct (entryTask block i c0 st) as [st1 err] eqn:Htask.
    unfold entryTask in Htask.
    destruct (GetEntryByCid c0) as [entryNode|e] eqn:Hc0.
    + injection Htask as <- <-.
      destruct rest as [|c1 rest'].
      * cbn in Hidx. injection Hidx as <-.
        cbn [entriesLoop] in Hloop. injection Hloop as <- _.
        exists entryNode. split; [assumption|].
        unfold len in Hlen. cbn [List.length] in Hlen. cbn [fst].
        replace (i =? len (Block.Entries block) - 1) with true; [reflexivity|].
        symmetry. apply Z.eqb_eq. unfold len. lia.
      * rewrite index_last_cons in Hidx.
        eapply IH; [|exact Hloop|exact Hidx].
        unfold len in *. cbn [List.length] in *. lia.
    + injection Htask as <- <-.
      assert (Hsnd : snd (entriesLoop block (i + 1) rest st
                            (match firstErr with Some e0 => Some e0 | None => Some e end))
                     = None) by (now rewrite Hloop).
      destruct firstErr; rewrite entriesLoop_firstErr in Hsnd; discriminate.
Qed.

Lemma getBlock_entries_Return (block : Block.t) (o : Outcome) :
  getBlock_entries block = Return o -> o = InternalErrorReply.
Proof.
  unfold getBlock_entries.
  destruct (entriesLoop block 0 (Block.Entries block) (SolanaHash_zero, []) None)
    as [st [e|]]; congruence.
Qed.

Lemma rewardsFromMap_Return (m : jmap) (o : Outcome) :
  rewardsFromMap m = Return o -> o = Panicked.
Proof.
  unfold rewardsFromMap.
  destruct (map_get "rewards" m) as [[| | | |l|]|]; try congruence.
  destruct (fixRewards l); congruence.
Qed.

Lemma getBlock_rewards_Return (block : Block.t) (o : Outcome) :
  getBlock_rewards block = Return o -> o = InternalErrorReply \/ o = Panicked.
Proof.
  unfold getBlock_rewards.
  destruct (negb (Cid_Equals (Block.Rewards block) DummyCID)); [|discriminate].
  destruct (GetRewardsByCid (Block.Rewards block)) as [node|]; [|left; congruence].
  destruct (reassemble GetDataFrameByCid (Rewards.Data node)) as [buf|]; [|left; congruence].
  destruct (decompressZstd buf) as [u|]; [|right; congruence].
  destruct (ParseRewards u) as [r|]; [|discriminate].
  destruct (json_Marshal r) as [doc|]; [|left; congruence].
  destruct (json_Unmarshal_map doc) as [m|]; [|left; congruence].
  intros Hm. right. now apply rewardsFromMap_Return with m.
Qed.

Lemma transactionResponse_Return (node : Transaction.t) (o : Outcome) :
  transactionResponse node = Return o -> o = InternalErrorReply.
Proof.
  unfold transactionResponse.
  destruct (parseTransactionAndMetaFromNode node GetDataFrameByCid) as [[tx meta] [e|]];
    [congruence|].
  destruct (ToBase64 tx); congruence.
Qed.

Lemma transactionsLoop_Return (nodes : list Transaction.t) :
  forall (acc : list (GetTransactionResponse.t StatusMeta)) (o : Outcome),
    transactionsLoop nodes acc = Return o -> o = InternalErrorReply.
Proof.
  induction nodes as [|node rest IH]; intros acc o; simpl.
  - discriminate.
  - destruct (transactionResponse node) as [txResp|o'] eqn:Hnode.
    + apply IH.
    + intros [= <-]. now apply transactionResponse_Return with node.
Qed.

Lemma getBlock_previousBlockhash_Return (block : Block.t) (o : Outcome) :
  getBlock_previousBlockhash block = Return o -> o = InternalErrorReply \/ o = Panicked.
Proof.
  unfold getBlock_previousBlockhash.
  destruct (negb (uint64 (SlotMeta.Parent_slot (Block.Meta block)) =? 0)); [|discriminate].
  destruct (GetBlock _) as [parentBlock|]; [|left; congruence].
  destruct (index _ _) as [c|]; [|right; congruence].
  destruct (GetEntryByCid c); [discriminate|left; congruence].
Qed.

(** What a reply built by [getBlock_respond] holds. *)
Lemma getBlock_respond_Replied (block : Block.t) (blocktime : Z) (st : EntriesState)
    (rewards : any) (resp : GetBlockResponse.t StatusMeta) :
  getBlock_respond block blocktime st rewards = Replied resp ->
  GetBlockResponse.BlockTime resp = Some blocktime /\
  GetBlockResponse.Blockhash resp = Hash_String (fst st) /\
  GetBlockResponse.ParentSlot resp = uint64 (SlotMeta.Parent_slot (Block.Meta block)) /\
  GetBlockResponse.Rewards resp = rewards.
Proof.
  unfold getBlock_respond.
  destruct (transactionsLoop (snd st) []) as [txs|o] eqn:Htxs.
  - destruct (getBlock_previousBlockhash block) as [prev|o] eqn:Hprev.
    + intros [= <-]. cbn. repeat split.
    + intros ->. apply getBlock_previousBlockhash_Return in Hprev.
      destruct Hprev; discriminate.
  - intros ->. apply transactionsLoop_Return in Htxs. discriminate.
Qed.

(** An error reply of [getBlock_respond] is the Internal error. *)
Lemma getBlock_respond_error (block : Block.t) (blocktime : Z) (st : EntriesState)
    (rewards : any) (code : Z) (message : string) :
  getBlock_respond block blocktime st rewards = RepliedWithError code message ->
  RepliedWithError code message = InternalErrorReply.
Proof.
  unfold getBlock_respond.
  destruct (transactionsLoop (snd st) []) as [txs|o] eqn:Htxs.
  - destruct (getBlock_previousBlockhash block) as [prev|o] eqn:Hprev.
    + discriminate.
    + intros ->. apply getBlock_previousBlockhash_Return in Hprev.
      destruct Hprev as [Hp|Hp]; [exact Hp|discriminate].
  - intros ->. now apply transactionsLoop_Return in Htxs.
Qed.

Lemma getBlock_assemble_Replied (block : Block.t) (resp : GetBlockResponse.t StatusMeta) :
  getBlock_assemble block = Replied resp ->
  exists (st : EntriesState) (rewards : any),
    getBlock_entries block = Continue st /\
    getBlock_rewards block = Continue rewards /\
    getBlock_respond block (uint64 (SlotMeta.Blocktime (Block.Meta block))) st rewards
    = Replied resp.
Proof.
  unfold getBlock_assemble.
  destruct (getBlock_entries block) as [st|o] eqn:Hentries.
  - destruct (getBlock_rewards block) as [rewards|o] eqn:Hrewards.
    + intros Hresp. now exists st, rewards.
    + intros ->. apply getBlock_rewards_Return in Hrewards.
      destruct Hrewards; discriminate.
  - intros ->. apply getBlock_entries_Return in Hentries. discriminate.
Qed.

Lemma getBlock_with_block (req : Request.t) (params : GetBlockRequest.t) (block : Block.t) :
  parseGetBlockRequest (Request.Params req) = Ret (Some params, None) ->
  GetBlock (GetBlockRequest.Slot params) = Ok block ->
  getBlock req = getBlock_assemble block.
Proof. intros Hparse Hblock. unfold getBlock. now rewrite Hparse, Hblock. Qed.

Lemma getBlock_Replied (req : Request.t) (resp : GetBlockResponse.t StatusMeta) :
  getBlock req = Replied resp ->
  exists (params : GetBlockRequest.t) (block : Block.t),
    parseGetBlockRequest (Request.Params req) = Ret (Some params, None) /\
    GetBlock (GetBlockRequest.Slot params) = Ok block /\
    getBlock_assemble block = Replied resp.
Proof.
  unfold getBlock.
  destruct (parseGetBlockRequest (Request.Params req)) as [[[params|] [e|]]|];
    try discriminate.
  destruct (GetBlock (GetBlockRequest.Slot params)) as [block|] eqn:Hblock;
    [|discriminate].
  intros Hresp. now exists params, block.
Qed.

Lemma appendTransactionNodes_spec (txs : list Cid) :
  forall acc : list Transaction.t,
    appendTransactionNodes txs acc = acc ++ decodableTransactions txs.
Proof.
  induction txs as [|tx rest IH]; intros acc; simpl.
  - now rewrite app_nil_r.
  - destruct (GetTransactionByCid tx) as [txNode|e]; rewrite IH; simpl.
    + now rewrite <- app_assoc.
    + reflexivity.
Qed.

Lemma entriesLoop_nodes (block : Block.t) (entries : list Cid) :
  forall (i : Z) (st st' : EntriesState) (firstErr : option error),
    entriesLoop block i entries st firstErr = (st', None) ->
    snd st' = snd st ++ flat_map entryTransactions entries.
Proof.
  induction entries as [|c rest IH]; intros i st st' firstErr Hloop.
  - cbn in Hloop. injection Hloop as <- _. cbn. now rewrite app_nil_r.
  - cbn [entriesLoop] in Hloop.
    destruct (entryTask block i c st) as [st1 err] eqn:Htask.
    unfold entryTask in Htask. cbn [flat_map]. unfold entryTransactions at 1.
    destruct (GetEntryByCid c) as [entryNode|e].
    + injection Htask as <- <-.
      rewrite (IH _ _ _ _ Hloop). cbn [snd].
      rewrite appendTransactionNodes_spec. now rewrite app_assoc.
    + injection Htask as <- <-.
      assert (Hsnd : snd (entriesLoop block (i + 1) rest st
                            (match firstErr with Some e0 => Some e0 | None => Some e end))
                     = None) by (now rewrite Hloop).
      destruct firstErr; rewrite entriesLoop_firstErr in Hsnd; discriminate.
Qed.

Lemma entriesLoop_all_ok (block : Block.t) (entries : list Cid) :
  forall (i : Z) (st : EntriesState),
    (forall c, In c entries -> exists entryNode, GetEntryByCid c = Ok entryNode) ->
    snd (entriesLoop block i entries st None) = None.
Proof.
  induction entries as [|c rest IH]; intros i st Hall.
  - reflexivity.
  - cbn [entriesLoop]. unfold entryTask.
    destruct (Hall c (or_introl eq_refl)) as [entryNode ->].
    apply IH. intros c' Hin. apply Hall. now right.
Qed.

Lemma getBlock_assemble_entry_failure (block : Block.t) (c : Cid) (e : error) :
  In c (Block.Entries block) -> GetEntryByCid c = Err e ->
  getBlock_assemble block = InternalErrorReply.
Proof.
  intros Hin Hc. unfold getBlock_assemble, getBlock_entries.
  destruct (entriesLoop_err block (Block.Entries block) 0 (SolanaHash_zero, []) None c
              Hin Hc) as [e' He'].
  destruct (entriesLoop block 0 (Block.Entries block) (SolanaHash_zero, []) None)
    as [st err]. cbn in He'. now subst err.
Qed.

(** A rewards payload that does not decompress stops the handler with
    the [panic(err)] of the source. *)
Lemma getBlock_rewards_decompress_failure (block : Block.t) (node : Rewards.t)
    (buf : bytes) (e : error) :
  Cid_Equals (Block.Rewards block) DummyCID = false ->
  GetRewardsByCid (Block.Rewards block) = Ok node ->
  reassemble GetDataFrameByCid (Rewards.Data node) = Ok buf ->
  decompressZstd buf = Err e ->
  getBlock_rewards block = Return Panicked.
Proof.
  intros Hdummy Hnode Hbuf Hz. unfold getBlock_rewards.
  now rewrite Hdummy, Hnode, Hbuf, Hz.
Qed.

Lemma parseTransactionAndMetaFromNode_no_signatures (node : Transaction.t)
    (getter : Cid -> result DataFrame.t) (buf : bytes) (tx : SolanaTransaction) :
  reassemble getter (Transaction.Data node) = Ok buf ->
  UnmarshalBin buf = Ok tx ->
  Signatures_len tx = 0 ->
  parseTransactionAndMetaFromNode node getter = (SolanaTransaction_zero, None, None).
Proof.
  intros Hbuf Htx Hsig. unfold parseTransactionAndMetaFromNode.
  now rewrite Hbuf, Htx, Hsig.
Qed.

(** C2.  In the assembly of a block: a transaction of an entry that
    cannot be fetched or decoded is passed over, the entry's task
    reports no error and the entries stage goes through when every
    entry decodes; an entry that cannot be fetched or decoded, a rewards
    node that cannot be fetched or decoded and a rewards frame that
    cannot be fetched each end the request with the Internal error
    reply; a rewards payload that the rewards parser rejects does not
    end the request: the assembly goes on with null rewards. *)
Theorem getBlock_failure_policy (req : Request.t) (params : GetBlockRequest.t)
    (block : Block.t) :
  parseGetBlockRequest (Request.Params req) = Ret (Some params, None) ->
  GetBlock (GetBlockRequest.Slot params) = Ok block ->
  (forall (i : Z) (c : Cid) (entryNode : Entry.t) (st : EntriesState),
      GetEntryByCid c = Ok entryNode ->
      snd (entryTask block i c st) = None /\
      snd (fst (entryTask block i c st))
      = snd st ++ decodableTransactions (Entry.Transactions entryNode)) /\
  ((forall c, In c (Block.Entries block) ->
              exists entryNode, GetEntryByCid c = Ok entryNode) ->
   exists st, getBlock_entries block = Continue st /\
              snd st = flat_map entryTransactions (Block.Entries block)) /\
  (forall (c : Cid) (e : error),
      In c (Block.Entries block) -> GetEntryByCid c = Err e ->
      getBlock req = RepliedWithError (-32603) "Internal error") /\
  (forall st : EntriesState,
      getBlock_entries block = Continue st ->
      Cid_Equals (Block.Rewards block) DummyCID = false ->
      (forall e : error,
          GetRewardsByCid (Block.Rewards block) = Err e ->
          getBlock req = RepliedWithError (-32603) "Internal error") /\
      (forall (node : Rewards.t) (c : Cid) (e : error),
          GetRewardsByCid (Block.Rewards block) = Ok node ->
          DataFrame.Total (Rewards.Data node) > 1 ->
          In c (DataFrame.Next (Rewards.Data node)) ->
          GetDataFrameByCid c = Err e ->
          getBlock req = RepliedWithError (-32603) "Internal error") /\
      (forall (node : Rewards.t) (buf uncompressed : bytes) (e : error),
          GetRewardsByCid (Block.Rewards block) = Ok node ->
          reassemble GetDataFrameByCid (Rewards.Data node) = Ok buf ->
          decompressZstd buf = Ok uncompressed ->
          ParseRewards uncompressed = Err e ->
          getBlock req
          = getBlock_respond block (uint64 (SlotMeta.Blocktime (Block.Meta block)))
              st JNull)).
Proof.
  intros Hparse Hblock.
  rewrite (getBlock_with_block req Hparse Hblock).
  split; [|split; [|split]].
  - intros i c entryNode st Hc. unfold entryTask. rewrite Hc. cbn.
    split; [reflexivity|apply appendTransactionNodes_spec].
  - intros Hall. unfold getBlock_entries.
    pose proof (entriesLoop_all_ok block (Block.Entries block) 0 (SolanaHash_zero, []) Hall)
      as Hnone.
    destruct (entriesLoop block 0 (Block.Entries block) (SolanaHash_zero, []) None)
      as [st err] eqn:Hloop.
    cbn in Hnone. subst err. exists st. split; [reflexivity|].
    now rewrite (entriesLoop_nodes _ _ _ _ _ Hloop).
  - intros c e Hin Hc. now apply getBlock_assemble_entry_failure with c e.
  - intros st Hentries Hdummy. unfold getBlock_assemble, getBlock_rewards.
    rewrite Hentries, Hdummy. cbn [negb].
    split; [|split].
    + intros e Hnode. now rewrite Hnode.
    + intros node c e Hnode Htotal Hin Hc. rewrite Hnode.
      unfold reassemble.
      replace (DataFrame.Total (Rewards.Data node) >? 1) with true
        by (symmetry; apply Z.gtb_lt; lia).
      destruct (appendFrames_err GetDataFrameByCid _ (DataFrame.Data (Rewards.Data node))
                  _ Hin Hc) as [e' ->].
      reflexivity.
    + intros node buf u e Hnode Hbuf Hz Hparsed.
      now rewrite Hnode, Hbuf, Hz, Hparsed.
Qed.


(** C6.  A request whose first parameter is a string: the parameters
    parse to [(nil, nil)] and the handler panics on [params.Slot]
    instead of replying Invalid params. *)
Theorem getBlock_non_number_param_panics (method s : string) (rest : list any) :
  parseGetBlockRequest (Some (JArray (JString s :: rest))) = Ret (None, None) /\
  getBlock (Request.mk method (Some (JArray (JString s :: rest)))) = Panicked.
Proof. split; reflexivity. Qed.

(** C7.  When the map decoded from the parsed rewards has no "rewards"
    key, the rewards stage does not end the request: the assembly goes
    on with null rewards, and a reply then sent carries null rewards. *)
Theorem getBlock_rewards_key_absent (req : Request.t) (params : GetBlockRequest.t)
    (block : Block.t) (st : EntriesState) (node : Rewards.t) (buf uncompressed : bytes)
    (actualRewards : ParsedRewards) (doc : RawMessage) (m : jmap) :
  parseGetBlockRequest (Request.Params req) = Ret (Some params, None) ->
  GetBlock (GetBlockRequest.Slot params) = Ok block ->
  getBlock_entries block = Continue st ->
  Cid_Equals (Block.Rewards block) DummyCID = false ->
  GetRewardsByCid (Block.Rewards block) = Ok node ->
  reassemble GetDataFrameByCid (Rewards.Data node) = Ok buf ->
  decompressZstd buf = Ok uncompressed ->
  ParseRewards uncompressed = Ok actualRewards ->
  json_Marshal actualRewards = Ok doc ->
  json_Unmarshal_map doc = Ok m ->
  map_get "rewards" m = None ->
  getBlock_rewards block = Continue JNull /\
  getBlock req
  = getBlock_respond block (uint64 (SlotMeta.Blocktime (Block.Meta block))) st JNull /\
  (forall resp, getBlock req = Replied resp -> GetBlockResponse.Rewards resp = JNull).
Proof.
  intros Hparse Hblock Hentries Hdummy Hnode Hbuf Hz Hparsed Hdoc Hm Hkey.
  assert (Hrewards : getBlock_rewards block = Continue JNull).
  { unfold getBlock_rewards, rewardsFromMap.
    now rewrite Hdummy, Hnode, Hbuf, Hz, Hparsed, Hdoc, Hm, Hkey. }
  assert (Hreq : getBlock req
                 = getBlock_respond block (uint64 (SlotMeta.Blocktime (Block.Meta block)))
                     st JNull).
  { rewrite (getBlock_with_block req Hparse Hblock). unfold getBlock_assemble.
    now rewrite Hentries, Hrewards. }
  repeat split; try assumption.
  intros resp Hresp. rewrite Hreq in Hresp.
  now apply getBlock_respond_Replied in Hresp.
Qed.

(** C8.  A reply of [getBlock] comes from the block decoded for the
    requested slot; its [parentSlot] is that block's
    [meta.parent_slot] (an unsigned 64-bit number in the data model),
    and its [blockhash] is the base58 string of the hash of the entry
    at the last index of [block.entries]. *)
Theorem getBlock_parentSlot_and_blockhash (req : Request.t)
    (resp : GetBlockResponse.t StatusMeta) :
  getBlock req = Replied resp ->
  exists (params : GetBlockRequest.t) (block : Block.t),
    parseGetBlockRequest (Request.Params req) = Ret (Some params, None) /\
    GetBlock (GetBlockRequest.Slot params) = Ok block /\
    (0 <= SlotMeta.Parent_slot (Block.Meta block) < 2 ^ 64 ->
     GetBlockResponse.ParentSlot resp = SlotMeta.Parent_slot (Block.Meta block)) /\
    (forall lastEntryCid : Cid,
        index (Block.Entries block) (len (Block.Entries block) - 1) = Some lastEntryCid ->
        exists entryNode : Entry.t,
          GetEntryByCid lastEntryCid = Ok entryNode /\
          GetBlockResponse.Blockhash resp
          = Hash_String (HashFromBytes (Entry.Hash entryNode))).
Proof.
  intros Hreq.
  destruct (getBlock_Replied req Hreq) as (params & block & Hparse & Hblock & Hasm).
  destruct (getBlock_assemble_Replied block Hasm) as (st & rewards & Hentries & _ & Hresp).
  apply getBlock_respond_Replied in Hresp.
  destruct Hresp as (_ & Hhash & Hparent & _).
  exists params, block. repeat split; try assumption.
  - intros Hrange. rewrite Hparent. unfold uint64. now apply Z.mod_small.
  - intros lastEntryCid Hlast. unfold getBlock_entries in Hentries.
    destruct (entriesLoop block 0 (Block.Entries block) (SolanaHash_zero, []) None)
      as [st' [e|]] eqn:Hloop; [discriminate|].
    injection Hentries as ->.
    destruct (entriesLoop_last block (Block.Entries block) 0 (SolanaHash_zero, []) None
                (Z.add_0_l _) Hloop Hlast) as (entryNode & Hnode & Hfst).
    exists entryNode. split; [assumption|]. now rewrite Hhash, Hfst.
Qed.


End GetBlockProperties.

(** ** Camel-case keys *)

(** Induction on [any] through its slices and maps. *)
Lemma any_nested_ind (P : any -> Prop) :
  P JNull ->
  (forall b, P (JBool b)) ->
  (forall f, P (JNumber f)) ->
  (forall s, P (JString s)) ->
  (forall l, Forall P l -> P (JArray l)) ->
  (forall m, Forall (fun kv : string * any => P (snd kv)) m -> P (JObject m)) ->
  forall v, P v.
Proof.
  intros Hnull Hbool Hnum Hstr Harr Hobj.
  fix IH 1. intros [| b | f | s | l | m].
  - exact Hnull.
  - apply Hbool.
  - apply Hnum.
  - apply Hstr.
  - apply Harr. induction l as [|x l IHl]; constructor; [apply IH|exact IHl].
  - apply Hobj. induction m as [|[k x] m IHm]; constructor; [apply IH|exact IHm].
Qed.

Lemma map_set_twice (k : string) (a b : any) (m : jmap) :
  map_set k a (map_set k b m) = map_set k a m.
Proof.
  induction m as [|[k' v'] m IH]; simpl.
  - now rewrite String.eqb_refl.
  - destruct (String.eqb k k') eqn:Hk; simpl.
    + now rewrite String.eqb_refl.
    + now rewrite Hk, IH.
Qed.

Lemma map_set_In (k : string) (a : any) (m : jmap) (k' : string) (v' : any) :
  In (k', v') (map_set k a m) -> (k', v') = (k, a) \/ In (k', v') m.
Proof.
  induction m as [|[k0 v0] m IH]; simpl.
  - intros [Heq|[]]. now left.
  - destruct (String.eqb k k0); simpl.
    + intros [Heq|Hin]; [now left|now right; right].
    + intros [Heq|Hin]; [now right; left|].
      destruct (IH Hin) as [Heq|Hin']; [now left|now right; right].
Qed.

Lemma substring_all (s : string) : substring 0 (String.length s) s = s.
Proof. induction s as [|c s IH]; simpl; [reflexivity|now rewrite IH]. Qed.

Lemma lowerByte_letter (c : ascii) :
  isLower c || isUpper c = true ->
  isASCIIbyte c = true /\ isLower (lowerByte c) = true.
Proof.
  destruct c as [[] [] [] [] [] [] [] []]; vm_compute; intros Hc;
    try discriminate; split; reflexivity.
Qed.

Section CamelCaseProperties.
Context `{Externals}.

Lemma MapToCamelCase_unfold (m : jmap) :
  MapToCamelCase m
  = fold_left (fun newMap kv =>
                 map_set (toLowerCamelCase (fst kv)) (storedValue (snd kv)) newMap)
      m [].
Proof.
  unfold MapToCamelCase. cbn [camelObject].
  generalize (@nil (string * any)) as newMap.
  induction m as [|[k v] m IH]; intros newMap; cbn [fold_left].
  - reflexivity.
  - rewrite <- IH. f_equal. cbn [fst snd].
    destruct v; cbn [storedValue]; try reflexivity; apply map_set_twice.
Qed.

Lemma toLowerCamelCase_matches (k : string) :
  pascalShaped (ToPascalCase k) = true ->
  matchesKeyCase (toLowerCamelCase k) = true.
Proof.
  unfold toLowerCamelCase.
  destruct (ToPascalCase k) as [|c rest]; [discriminate|].
  cbn [pascalShaped]. intros Hshape.
  apply andb_true_iff in Hshape. destruct Hshape as [Hc Hrest].
  destruct (lowerByte_letter c Hc) as [Hascii Hlower].
  replace (strlen (String c rest) =? 0) with false
    by (symmetry; apply Z.eqb_neq; unfold strlen; cbn [String.length]; lia).
  assert (Hone : strings_ToLower (String c EmptyString) = String (lowerByte c) EmptyString).
  { unfold strings_ToLower. cbn [allBytes mapBytes]. now rewrite Hascii. }
  destruct rest as [|c' rest'].
  - cbn. rewrite Hone. cbn [matchesKeyCase allBytes]. now rewrite Hlower.
  - replace (strlen (String c (String c' rest')) =? 1) with false
      by (symmetry; apply Z.eqb_neq; unfold strlen; cbn [String.length]; lia).
    replace (substring 0 1 (String c (String c' rest'))) with (String c EmptyString)
      by reflexivity.
    rewrite Hone.
    replace (substring 1 (String.length (String c (String c' rest')) - 1)
               (String c (String c' rest')))
      with (String c' rest').
    + cbn [append matchesKeyCase]. now rewrite Hlower.
    + cbn [String.length Nat.sub]. cbn [substring].
      now rewrite substring_all.
Qed.

Lemma storedValue_camelized (v : any) :
  camelized (storedValue v) /\ camelized (JObject (camelObject v)).
Proof.
  induction v as [| b | f | s | l IHl | m IHm] using any_nested_ind.
  1-4: split; [constructor|apply camelized_object; intros k x []].
  - split; [|apply camelized_object; intros k x []].
    cbn [storedValue]. constructor. intros m1 Hin.
    apply in_map_iff in Hin. destruct Hin as (vv & Hvv & Hin).
    rewrite Forall_forall in IHl. specialize (IHl vv Hin).
    destruct vv; try discriminate. rewrite <- Hvv. apply IHl.
  - assert (Hobj : camelized (JObject (camelObject (JObject m)))).
    { change (camelObject (JObject m)) with (MapToCamelCase m).
      rewrite MapToCamelCase_unfold.
      apply camelized_object.
      assert (Hinv : forall newMap : jmap,
                 (forall k x, In (k, x) newMap ->
                              (exists k0, k = toLowerCamelCase k0) /\ camelized x) ->
                 forall k x,
                   In (k, x)
                     (fold_left (fun newMap kv =>
                                   map_set (toLowerCamelCase (fst kv))
                                     (storedValue (snd kv)) newMap) m newMap) ->
                   (exists k0, k = toLowerCamelCase k0) /\ camelized x).
      { induction IHm as [|[k0 v0] m' Hv0 _ IH]; intros newMap Hnew k x;
          cbn [fold_left].
        - apply Hnew.
        - apply IH. intros k1 x1 Hin.
          apply map_set_In in Hin. destruct Hin as [Heq|Hin]; [|now apply Hnew].
          injection Heq as -> ->. cbn [fst snd] in *.
          split; [now exists k0|apply Hv0]. }
      intros k x. apply Hinv. intros k' x' []. }
    split; [exact Hobj|exact Hobj].
Qed.

Lemma camelObject_camelized (v : any) : camelized (JObject (camelObject v)).
Proof. apply storedValue_camelized. Qed.

(** X27.  What [MapToCamelCase], and with it [Reply], does rewrite:
    the keys of the map itself, of every map that is a value of a rewritten map
    and of every map that is an element of a slice that is such a
    value; each key there is the lower-camel-case form of a key.  A
    rewritten key obeys the key-case law when the Pascal-case form of
    the original key is a non-empty string of ASCII letters and digits
    that starts with a letter. *)
Theorem MapToCamelCase_reached_keys (mm : jmap) :
  camelized (JObject (MapToCamelCase mm)) /\
  Reply (Ok mm) (Some (fun m => m)) = Ok (MapToCamelCase mm) /\
  (forall k : string,
      pascalShaped (ToPascalCase k) = true ->
      matchesKeyCase (toLowerCamelCase k) = true).
Proof.
  split; [apply camelObject_camelized|].
  split; [reflexivity|apply toLowerCamelCase_matches].
Qed.

End CamelCaseProperties.

(** * Further properties of the server *)

(** ** Reading and decoding nodes *)

Section NodeProperties.
Context `{Externals}.

(** X1.  With a payload that is not empty: [GetNodeByOffset] returns the
    payload and a nil error exactly when the data reader opens and the
    record at the offset carries the wanted CID and that payload. *)
Theorem GetNodeByOffset_payload_iff (wantedCid : Cid) (offset : Z) (data : bytes) :
  data <> [] ->
  (GetNodeByOffset wantedCid offset = (data, None) <->
   (exists u, DataReader = Ok u) /\ ReadNode offset = Ok (wantedCid, data)).
Proof.
  intros Hdata. unfold GetNodeByOffset. split.
  - destruct DataReader as [u|e]; [|discriminate].
    destruct (ReadNode offset) as [[gotCid d]|e]; [|discriminate].
    destruct (Cid_Equals gotCid wantedCid) eqn:Heq; cbn [negb]; intros Hret.
    + apply String.eqb_eq in Heq. injection Hret as <-. subst gotCid.
      split; [now exists u|reflexivity].
    + injection Hret as <-. now contradiction Hdata.
  - intros [[u ->] ->]. unfold Cid_Equals. now rewrite String.eqb_refl.
Qed.

(** X2.  An error of [GetNodeByCid] comes without bytes, and it is the
    error of the CID-to-offset lookup, of the data reader or of the
    read of the record; the archive is read only at the offset that the
    index gives for the CID. *)
Theorem GetNodeByCid_error (wantedCid : Cid) (data : bytes) (e : error) :
  GetNodeByCid wantedCid = (data, Some e) <->
  data = [] /\
  (FindOffsetFromCid wantedCid = Err e \/
   exists offset, FindOffsetFromCid wantedCid = Ok offset /\
                  (DataReader = Err e \/
                   (exists u, DataReader = Ok u) /\ ReadNode offset = Err e)).
Proof.
  unfold GetNodeByCid, GetNodeByOffset. split.
  - destruct (FindOffsetFromCid wantedCid) as [offset|e0] eqn:Hoff.
    + destruct DataReader as [u|e1] eqn:Hdr.
      * destruct (ReadNode offset) as [[gotCid d]|e2] eqn:Hrd.
        -- destruct (negb (Cid_Equals gotCid wantedCid)); discriminate.
        -- intros [= <- <-]. split; [reflexivity|]. right. exists offset.
           split; [reflexivity|]. right. split; [now exists u|exact Hrd].
      * intros [= <- <-]. split; [reflexivity|]. right. exists offset.
        split; [reflexivity|]. now left.
    + intros [= <- <-]. split; [reflexivity|]. now left.
  - intros [-> [->|(offset & -> & [->|[[u ->] ->]])]]; reflexivity.
Qed.

(** A node that a typed getter returns was decoded from the bytes that
    [GetNodeByCid] gave with a nil error. *)
Lemma getDecodedByCid_ok {A : Type} (decode : bytes -> result A) (cid : Cid) (a : A) :
  getDecodedByCid decode cid = Ok a <->
  exists data, GetNodeByCid cid = (data, None) /\ decode data = Ok a.
Proof.
  unfold getDecodedByCid. split.
  - destruct (GetNodeByCid cid) as [data [e|]]; [discriminate|].
    intros Hdec. now exists data.
  - intros (data & -> & Hdec). exact Hdec.
Qed.

(** The bytes that [GetNodeByCid] gives with a nil error: those of the
    record at the indexed offset when it carries the CID, or none. *)
Lemma GetNodeByCid_ok (cid : Cid) (data : bytes) :
  GetNodeByCid cid = (data, None) ->
  exists offset, FindOffsetFromCid cid = Ok offset /\
                 (data = [] \/ ReadNode offset = Ok (cid, data)).
Proof.
  unfold GetNodeByCid.
  destruct (FindOffsetFromCid cid) as [offset|e]; [|discriminate].
  intros Hret. exists offset. split; [reflexivity|].
  now apply GetNodeByOffset_payload.
Qed.

(** X3.  A block that [GetBlock] returns for a slot was decoded from
    the payload of the record that the two indexes lead to: the CID of
    the slot, the offset of that CID, and at that offset a record with
    that CID; or it was decoded from no bytes at all. *)
Theorem GetBlock_provenance (slot : Z) (block : Block.t) :
  GetBlock slot = Ok block ->
  exists (cid : Cid) (offset : Z) (data : bytes),
    findCidFromSlot slot = Ok cid /\
    findOffsetFromCid cid = Ok offset /\
    DecodeBlock data = Ok block /\
    (data = [] \/ ReadNode offset = Ok (cid, data)).
Proof.
  unfold GetBlock, FindCidFromSlot.
  destruct (findCidFromSlot slot) as [cid|e]; [|discriminate].
  intros Hdec. apply getDecodedByCid_ok in Hdec.
  destruct Hdec as (data & Hnode & Hdec).
  destruct (GetNodeByCid_ok _ Hnode) as (offset & Hoff & Hdata).
  now exists cid, offset, data.
Qed.

(** X4.  The same for a transaction that [GetTransaction] returns for a
    signature, through the signature-to-CID index. *)
Theorem GetTransaction_provenance (sig : bytes) (node : Transaction.t) :
  GetTransaction sig = Ok node ->
  exists (cid : Cid) (offset : Z) (data : bytes),
    findCidFromSignature sig = Ok cid /\
    findOffsetFromCid cid = Ok offset /\
    DecodeTransaction data = Ok node /\
    (data = [] \/ ReadNode offset = Ok (cid, data)).
Proof.
  unfold GetTransaction, FindCidFromSignature.
  destruct (findCidFromSignature sig) as [cid|e]; [|discriminate].
  intros Hdec. apply getDecodedByCid_ok in Hdec.
  destruct Hdec as (data & Hnode & Hdec).
  destruct (GetNodeByCid_ok _ Hnode) as (offset & Hoff & Hdata).
  now exists cid, offset, data.
Qed.

(** X5.  A CID that is not in the CID-to-offset index is an error for
    each of the typed getters, with the error of the lookup, whatever
    the archive holds and whatever the decoders accept. *)
Theorem typed_getters_unknown_cid (cid : Cid) (e : error) :
  findOffsetFromCid cid = Err e ->
  GetEntryByCid cid = Err e /\
  GetTransactionByCid cid = Err e /\
  GetDataFrameByCid cid = Err e /\
  GetRewardsByCid cid = Err e.
Proof.
  intros Hoff.
  unfold GetEntryByCid, GetTransactionByCid, GetDataFrameByCid, GetRewardsByCid,
    getDecodedByCid, GetNodeByCid, FindOffsetFromCid.
  rewrite Hoff. repeat split.
Qed.

End NodeProperties.

(** ** Requests and dispatch *)

Section RequestProperties.
Context `{Externals}.

Lemma getBlock_assemble_error (block : Block.t) (code : Z) (message : string) :
  getBlock_assemble block = RepliedWithError code message ->
  code = -32603 /\ message = "Internal error".
Proof.
  unfold getBlock_assemble.
  destruct (getBlock_entries block) as [st|o] eqn:Hentries.
  - destruct (getBlock_rewards block) as [rewards|o] eqn:Hrewards.
    + intros Hresp. apply getBlock_respond_error in Hresp.
      injection Hresp as -> ->. now split.
    + intros ->. apply getBlock_rewards_Return in Hrewards.
      destruct Hrewards as [Hr|Hr]; [|discriminate].
      injection Hr as -> ->. now split.
  - intros ->. apply getBlock_entries_Return in Hentries.
    injection Hentries as -> ->. now split.
Qed.

(** The error replies of [getBlock]. *)
Lemma getBlock_error_cases (req : Request.t) (code : Z) (message : string) :
  getBlock req = RepliedWithError code message ->
  (code = -32602 /\ message = "Invalid params" /\
   exists r e, parseGetBlockRequest (Request.Params req) = Ret (r, Some e)) \/
  (code = -32603 /\ message = "Failed to get block") \/
  (code = -32603 /\ message = "Internal error").
Proof.
  unfold getBlock.
  destruct (parseGetBlockRequest (Request.Params req)) as [[r [e|]]|] eqn:Hparse;
    cbv beta iota.
  - intros Hreq. left. destruct r; injection Hreq as <- <-; repeat split; eauto.
  - destruct r as [params|]; [|discriminate]. cbv zeta.
    destruct (GetBlock (GetBlockRequest.Slot params)) as [block|e].
    + intros Hasm. right. right. now apply getBlock_assemble_error with block.
    + intros [= <- <-]. right. left. now split.
  - discriminate.
Qed.



(** X8.  An error reply of [getBlock] is one of three: -32602
    "Invalid params", -32603 "Failed to get block", -32603
    "Internal error".  It is never Parse error or Method not found. *)
Theorem getBlock_error_replies (req : Request.t) (code : Z) (message : string) :
  getBlock req = RepliedWithError code message ->
  (code = -32602 /\ message = "Invalid params") \/
  (code = -32603 /\ message = "Failed to get block") \/
  (code = -32603 /\ message = "Internal error").
Proof.
  intros Hreq. apply getBlock_error_cases in Hreq.
  destruct Hreq as [(Hc & Hm & _)|[Hr|Hr]]; [left|right; left|right; right];
    try assumption. now split.
Qed.

Section Dispatch.
Variable SignatureFromBase58 : string -> result bytes.
Variable json_Unmarshal_request : bytes -> result Request.t.
Variable TransactionOutcome : Type.
Variable getTransaction : Request.t -> TransactionOutcome.


(** X10.  The dispatcher replies Method not found (-32601) exactly for
    a method that is neither [getBlock] nor [getTransaction], whatever
    the params; the [getBlock] handler never gives that reply. *)
Theorem Handle_method_not_found (req : Request.t) (message : string) :
  Handle getTransaction req = inl (RepliedWithError (-32601) message) <->
  message = "Method not found" /\
  Request.Method req <> "getBlock" /\
  Request.Method req <> "getTransaction".
Proof.
  unfold Handle.
  destruct (String.eqb (Request.Method req) "getBlock") eqn:Hblock.
  - apply String.eqb_eq in Hblock. split.
    + intros [= Hreq]. apply getBlock_error_cases in Hreq.
      destruct Hreq as [(Hc & _)|[[Hc _]|[Hc _]]]; discriminate.
    + intros (_ & Hne & _). contradiction.
  - apply String.eqb_neq in Hblock.
    destruct (String.eqb (Request.Method req) "getTransaction") eqn:Htx.
    + apply String.eqb_eq in Htx. split; [discriminate|].
      intros (_ & _ & Hne). contradiction.
    + apply String.eqb_neq in Htx. split.
      * intros [= <-]. now repeat split.
      * intros (-> & _ & _). reflexivity.
Qed.

(** X11.  [newRPC] answers with HTTP status 400 exactly when the body
    cannot be read or is not a JSON-RPC request; the reply is then
    -32700 "Parse error" and no handler runs.  In every other case the
    request parsed from the body goes to the dispatcher. *)
Theorem newRPC_bad_request (body : result bytes) :
  (forall code message,
      newRPC json_Unmarshal_request getTransaction body = BadRequest code message <->
      code = -32700 /\ message = "Parse error" /\
      ((exists e, body = Err e) \/
       exists b e, body = Ok b /\ json_Unmarshal_request b = Err e)) /\
  (forall a,
      newRPC json_Unmarshal_request getTransaction body = Handled a <->
      exists b rpcRequest,
        body = Ok b /\ json_Unmarshal_request b = Ok rpcRequest /\
        a = Handle getTransaction rpcRequest).
Proof.
  unfold newRPC. split.
  - intros code message. split.
    + destruct body as [b|e].
      * destruct (json_Unmarshal_request b) as [rpcRequest|e] eqn:Hreq; [discriminate|].
        intros [= <- <-]. repeat split. right. now exists b, e.
      * intros [= <- <-]. repeat split. left. now exists e.
    + intros (-> & -> & [[e ->]|(b & e & -> & ->)]); reflexivity.
  - intros a. split.
    + destruct body as [b|e]; [|discriminate].
      destruct (json_Unmarshal_request b) as [rpcRequest|e] eqn:Hreq; [|discriminate].
      intros [= <-]. now exists b, rpcRequest.
    + intros (b & rpcRequest & -> & -> & ->). reflexivity.
Qed.

End Dispatch.

End RequestProperties.

(** ** The reply of [getBlock] *)

Section ReplyProperties.
Context `{Externals}.

Lemma transactionResponse_Continue (node : Transaction.t)
    (txResp : GetTransactionResponse.t StatusMeta) :
  transactionResponse node = Continue txResp ->
  exists (tx : SolanaTransaction) (meta : option StatusMeta) (b64Tx : string),
    parseTransactionAndMetaFromNode node GetDataFrameByCid = (tx, meta, None) /\
    ToBase64 tx = Ok b64Tx /\
    txResp = GetTransactionResponse.mk None meta None
               [JString b64Tx; JString "base64"]
               (if IsVersioned tx
                then VersionNumber (int64 (GetVersion tx - 1))
                else VersionString "legacy").
Proof.
  unfold transactionResponse.
  destruct (parseTransactionAndMetaFromNode node GetDataFrameByCid)
    as [[tx meta] [e|]]; [discriminate|].
  destruct (ToBase64 tx) as [b64Tx|e] eqn:Hb64; [|discriminate].
  intros [= <-]. now exists tx, meta, b64Tx.
Qed.

Lemma transactionsLoop_Continue (nodes : list Transaction.t) :
  forall acc txs : list (GetTransactionResponse.t StatusMeta),
    transactionsLoop nodes acc = Continue txs ->
    exists added,
      txs = acc ++ added /\
      Forall2 (fun node txResp => transactionResponse node = Continue txResp)
        nodes added.
Proof.
  induction nodes as [|node rest IH]; intros acc txs; cbn [transactionsLoop].
  - intros [= <-]. exists []. split; [now rewrite app_nil_r|constructor].
  - destruct (transactionResponse node) as [txResp|o] eqn:Hnode; [|discriminate].
    intros Hloop. destruct (IH _ _ Hloop) as (added & -> & Hall).
    exists (txResp :: added). split; [now rewrite <- app_assoc|now constructor].
Qed.

(** The whole reply that [getBlock_respond] builds. *)
Lemma getBlock_respond_fields (block : Block.t) (blocktime : Z) (st : EntriesState)
    (rewards : any) (resp : GetBlockResponse.t StatusMeta) :
  getBlock_respond block blocktime st rewards = Replied resp ->
  exists allTransactions previousBlockhash,
    transactionsLoop (snd st) [] = Continue allTransactions /\
    getBlock_previousBlockhash block = Continue previousBlockhash /\
    resp = GetBlockResponse.mk 0 (Some blocktime) (Hash_String (fst st))
             (uint64 (SlotMeta.Parent_slot (Block.Meta block)))
             previousBlockhash rewards allTransactions.
Proof.
  unfold getBlock_respond.
  destruct (transactionsLoop (snd st) []) as [txs|o] eqn:Htxs.
  - destruct (getBlock_previousBlockhash block) as [prev|o] eqn:Hprev.
    + intros [= <-]. now exists txs, prev.
    + intros ->. apply getBlock_previousBlockhash_Return in Hprev.
      destruct Hprev; discriminate.
  - intros ->. apply transactionsLoop_Return in Htxs. discriminate.
Qed.

(** From a reply back to the stages of the handler. *)
Lemma getBlock_Replied_stages (req : Request.t) (resp : GetBlockResponse.t StatusMeta) :
  getBlock req = Replied resp ->
  exists (params : GetBlockRequest.t) (block : Block.t) (st : EntriesState)
         (rewards : any),
    parseGetBlockRequest (Request.Params req) = Ret (Some params, None) /\
    GetBlock (GetBlockRequest.Slot params) = Ok block /\
    getBlock_entries block = Continue st /\
    getBlock_rewards block = Continue rewards /\
    getBlock_respond block (uint64 (SlotMeta.Blocktime (Block.Meta block))) st rewards
    = Replied resp.
Proof.
  intros Hreq.
  destruct (getBlock_Replied req Hreq) as (params & block & Hparse & Hblock & Hasm).
  destruct (getBlock_assemble_Replied block Hasm) as (st & rewards & He & Hr & Hresp).
  now exists params, block, st, rewards.
Qed.

Lemma getBlock_entries_nodes (block : Block.t) (st : EntriesState) :
  getBlock_entries block = Continue st ->
  snd st = flat_map entryTransactions (Block.Entries block).
Proof.
  unfold getBlock_entries.
  destruct (entriesLoop block 0 (Block.Entries block) (SolanaHash_zero, []) None)
    as [st' [e|]] eqn:Hloop; [discriminate|].
  intros [= <-]. now rewrite (entriesLoop_nodes _ _ _ _ _ Hloop).
Qed.

(** X12.  A block without entries: a reply for it has the string of
    the zero hash as [blockhash] and no transactions. *)
Theorem getBlock_block_without_entries (req : Request.t)
    (params : GetBlockRequest.t) (block : Block.t)
    (resp : GetBlockResponse.t StatusMeta) :
  parseGetBlockRequest (Request.Params req) = Ret (Some params, None) ->
  GetBlock (GetBlockRequest.Slot params) = Ok block ->
  Block.Entries block = [] ->
  getBlock req = Replied resp ->
  GetBlockResponse.Blockhash resp = Hash_String SolanaHash_zero /\
  GetBlockResponse.Transactions resp = [].
Proof.
  intros Hparse Hblock Hnil Hreq.
  rewrite (getBlock_with_block req Hparse Hblock) in Hreq.
  destruct (getBlock_assemble_Replied block Hreq) as (st & rewards & He & _ & Hresp).
  unfold getBlock_entries in He. rewrite Hnil in He. cbn in He.
  injection He as <-.
  apply getBlock_respond_fields in Hresp.
  destruct Hresp as (txs & prev & Htxs & _ & ->).
  cbn in Htxs. injection Htxs as <-. now split.
Qed.

(** X13.  The [previousBlockhash] of a reply: the empty string when the
    parent slot of the block is 0; otherwise the string of the hash of
    the entry at the last index of the entries of the block that
    [GetBlock] gives for the parent slot. *)
Theorem getBlock_previousBlockhash_of_reply (req : Request.t)
    (resp : GetBlockResponse.t StatusMeta) :
  getBlock req = Replied resp ->
  exists (params : GetBlockRequest.t) (block : Block.t),
    parseGetBlockRequest (Request.Params req) = Ret (Some params, None) /\
    GetBlock (GetBlockRequest.Slot params) = Ok block /\
    (uint64 (SlotMeta.Parent_slot (Block.Meta block)) = 0 ->
     GetBlockResponse.PreviousBlockhash resp = "") /\
    (uint64 (SlotMeta.Parent_slot (Block.Meta block)) <> 0 ->
     exists (parentBlock : Block.t) (lastEntryCid : Cid) (entryNode : Entry.t),
       GetBlock (uint64 (SlotMeta.Parent_slot (Block.Meta block))) = Ok parentBlock /\
       index (Block.Entries parentBlock) (len (Block.Entries parentBlock) - 1)
       = Some lastEntryCid /\
       GetEntryByCid lastEntryCid = Ok entryNode /\
       GetBlockResponse.PreviousBlockhash resp
       = Hash_String (HashFromBytes (Entry.Hash entryNode))).
Proof.
  intros Hreq.
  destruct (getBlock_Replied_stages req Hreq)
    as (params & block & st & rewards & Hparse & Hblock & _ & _ & Hresp).
  apply getBlock_respond_fields in Hresp.
  destruct Hresp as (txs & prev & _ & Hprev & ->).
  exists params, block. repeat split; try assumption; cbn [GetBlockResponse.PreviousBlockhash].
  - intros Hzero. unfold getBlock_previousBlockhash in Hprev.
    rewrite Hzero in Hprev. cbn in Hprev. now injection Hprev as <-.
  - intros Hnz. unfold getBlock_previousBlockhash in Hprev.
    apply Z.eqb_neq in Hnz. rewrite Hnz in Hprev. cbn [negb] in Hprev.
    destruct (GetBlock (uint64 (SlotMeta.Parent_slot (Block.Meta block))))
      as [parentBlock|e]; [|discriminate].
    destruct (index (Block.Entries parentBlock) (len (Block.Entries parentBlock) - 1))
      as [lastEntryCid|] eqn:Hlast; [|discriminate].
    destruct (GetEntryByCid lastEntryCid) as [entryNode|e] eqn:Hentry; [|discriminate].
    injection Hprev as <-. now exists parentBlock, lastEntryCid, entryNode.
Qed.

(** X14.  The transactions of a reply: one element for each transaction
    node that could be fetched and decoded from the entries of the
    block (the nodes taken in some order); each element holds the pair
    of the base64 text of its transaction and the word "base64", its
    [slot] and [blockTime] are unset, and the [blockHeight] of the
    reply is 0. *)
Theorem getBlock_transactions_of_reply (req : Request.t)
    (resp : GetBlockResponse.t StatusMeta) :
  getBlock req = Replied resp ->
  exists (params : GetBlockRequest.t) (block : Block.t),
    parseGetBlockRequest (Request.Params req) = Ret (Some params, None) /\
    GetBlock (GetBlockRequest.Slot params) = Ok block /\
    GetBlockResponse.BlockHeight resp = 0 /\
    exists allTransactionNodes : list Transaction.t,
    Permutation allTransactionNodes
      (flat_map entryTransactions (Block.Entries block)) /\
    Forall2
      (fun (node : Transaction.t) (txResp : GetTransactionResponse.t StatusMeta) =>
         GetTransactionResponse.Blocktime txResp = None /\
         GetTransactionResponse.Slot txResp = None /\
         exists (tx : SolanaTransaction) (meta : option StatusMeta) (b64Tx : string),
           parseTransactionAndMetaFromNode node GetDataFrameByCid = (tx, meta, None) /\
           ToBase64 tx = Ok b64Tx /\
           GetTransactionResponse.Meta txResp = meta /\
           GetTransactionResponse.Transaction txResp
           = [JString b64Tx; JString "base64"])
      allTransactionNodes
      (GetBlockResponse.Transactions resp).
Proof.
  intros Hreq.
  destruct (getBlock_Replied_stages req Hreq)
    as (params & block & st & rewards & Hparse & Hblock & He & _ & Hresp).
  apply getBlock_respond_fields in Hresp.
  destruct Hresp as (txs & prev & Htxs & _ & ->).
  exists params, block. repeat split; try assumption.
  exists (snd st). split.
  { rewrite (getBlock_entries_nodes block He). apply Permutation_refl. }
  cbn [GetBlockResponse.Transactions].
  apply transactionsLoop_Continue in Htxs. destruct Htxs as (added & -> & Hall).
  cbn [app]. eapply Forall2_impl; [|exact Hall].
  intros node txResp Hnode. apply transactionResponse_Continue in Hnode.
  destruct Hnode as (tx & meta & b64Tx & Hp & Hb & ->).
  cbn. repeat split. now exists tx, meta, b64Tx.
Qed.

Lemma transactionsLoop_all_ok (nodes : list Transaction.t) :
  forall acc : list (GetTransactionResponse.t StatusMeta),
    (forall node, In node nodes ->
                  exists tx meta b64Tx,
                    parseTransactionAndMetaFromNode node GetDataFrameByCid
                    = (tx, meta, None) /\
                    ToBase64 tx = Ok b64Tx) ->
    exists txs, transactionsLoop nodes acc = Continue txs.
Proof.
  induction nodes as [|node rest IH]; intros acc Hall; cbn [transactionsLoop].
  - now exists acc.
  - destruct (Hall node (or_introl eq_refl)) as (tx & meta & b64Tx & Hp & Hb).
    unfold transactionResponse. rewrite Hp, Hb.
    apply IH. intros node' Hin. apply Hall. now right.
Qed.

(** X28.  [getBlock] does reply with a block when the slot parses, the
    block and every one of its entries can be fetched and decoded, the
    block links the dummy CID as rewards, every transaction node
    fetched from the entries parses without error and encodes to
    base64, and the parent slot is 0. *)
Theorem getBlock_replies (req : Request.t) (params : GetBlockRequest.t)
    (block : Block.t) :
  parseGetBlockRequest (Request.Params req) = Ret (Some params, None) ->
  GetBlock (GetBlockRequest.Slot params) = Ok block ->
  (forall c, In c (Block.Entries block) ->
             exists entryNode, GetEntryByCid c = Ok entryNode) ->
  Block.Rewards block = DummyCID ->
  (forall node, In node (flat_map entryTransactions (Block.Entries block)) ->
                exists tx meta b64Tx,
                  parseTransactionAndMetaFromNode node GetDataFrameByCid
                  = (tx, meta, None) /\
                  ToBase64 tx = Ok b64Tx) ->
  uint64 (SlotMeta.Parent_slot (Block.Meta block)) = 0 ->
  exists resp, getBlock req = Replied resp.
Proof.
  intros Hparse Hblock Hentries Hdummy Htxs Hparent.
  rewrite (getBlock_with_block req Hparse Hblock). unfold getBlock_assemble.
  pose proof (entriesLoop_all_ok block (Block.Entries block) 0 (SolanaHash_zero, [])
                Hentries) as Hnone.
  unfold getBlock_entries.
  destruct (entriesLoop block 0 (Block.Entries block) (SolanaHash_zero, []) None)
    as [st err] eqn:Hloop.
  cbn in Hnone. subst err.
  unfold getBlock_rewards. rewrite Hdummy. unfold Cid_Equals.
  rewrite String.eqb_refl. cbn [negb].
  unfold getBlock_respond.
  pose proof (entriesLoop_nodes _ _ _ _ _ Hloop) as Hnodes.
  cbn [snd app] in Hnodes. rewrite <- Hnodes in Htxs.
  destruct (transactionsLoop_all_ok (snd st) [] Htxs) as (txs & ->).
  unfold getBlock_previousBlockhash. rewrite Hparent. cbn.
  eexists. reflexivity.
Qed.

(** X29.  The parameters of [getBlock] panic in the parsing exactly when
    there is no first element to look at: the params are absent, null
    or an empty array; the handler then panics without a reply. *)
Theorem getBlock_params_without_first_element (req : Request.t) :
  (parseGetBlockRequest (Request.Params req) = Panic <->
   Request.Params req = None \/
   Request.Params req = Some JNull \/
   Request.Params req = Some (JArray [])) /\
  (parseGetBlockRequest (Request.Params req) = Panic -> getBlock req = Panicked).
Proof.
  split.
  - unfold parseGetBlockRequest. split.
    + destruct (Request.Params req) as [doc|]; [|now left].
      destruct doc as [| | | |l|]; try discriminate.
      * intros _. right. now left.
      * destruct l as [|v rest]; [intros _; right; now right|].
        cbn. destruct v; discriminate.
    + intros [-> | [-> | ->]]; reflexivity.
  - intros Hpanic. unfold getBlock. now rewrite Hpanic.
Qed.

End ReplyProperties.

(** ** Rewards *)

Lemma map_get_set_eq (k : string) (v : any) (m : jmap) :
  map_get k (map_set k v m) = Some v.
Proof.
  induction m as [|[k' v'] m IH]; cbn.
  - now rewrite String.eqb_refl.
  - destruct (String.eqb k k') eqn:Hk; cbn.
    + now rewrite String.eqb_refl.
    + now rewrite Hk.
Qed.

Lemma map_get_set_neq (k k' : string) (v : any) (m : jmap) :
  String.eqb k k' = false ->
  map_get k (map_set k' v m) = map_get k m.
Proof.
  intros Hne. induction m as [|[k0 v0] m IH]; cbn.
  - now rewrite Hne.
  - destruct (String.eqb k' k0) eqn:Hk0; cbn.
    + apply String.eqb_eq in Hk0. subst k0. now rewrite Hne.
    + destruct (String.eqb k k0); [reflexivity|exact IH].
Qed.

Lemma map_get_delete_neq (k k' : string) (m : jmap) :
  String.eqb k k' = false ->
  map_get k (map_delete k' m) = map_get k m.
Proof.
  intros Hne. induction m as [|[k0 v0] m IH]; cbn.
  - reflexivity.
  - destruct (String.eqb k' k0) eqn:Hk0; cbn.
    + apply String.eqb_eq in Hk0. subst k0. now rewrite Hne.
    + destruct (String.eqb k k0); [reflexivity|exact IH].
Qed.

Lemma map_get_None (k : string) (m : jmap) :
  map_get k m = None <-> ~ In k (keys m).
Proof.
  induction m as [|[k0 v0] m IH]; cbn.
  - split; [intros _ []|reflexivity].
  - destruct (String.eqb k k0) eqn:Hk.
    + apply String.eqb_eq in Hk. subst k0. split; [discriminate|].
      intros Hnot. contradiction Hnot. now left.
    + apply String.eqb_neq in Hk. rewrite IH. split.
      * intros Hnot [Heq|Hin]; [now apply Hk|now apply Hnot].
      * intros Hnot Hin. apply Hnot. now right.
Qed.

Lemma keys_map_set (k : string) (v : any) (m : jmap) :
  keys (map_set k v m) = if existsb (String.eqb k) (keys m) then keys m else keys m ++ [k].
Proof.
  induction m as [|[k0 v0] m IH]; cbn.
  - reflexivity.
  - destruct (String.eqb k k0) eqn:Hk; cbn.
    + apply String.eqb_eq in Hk. now subst k0.
    + fold (keys m). fold (keys (map_set k v m)). rewrite IH.
      now destruct (existsb (String.eqb k) (keys m)).
Qed.

Lemma NoDup_keys_map_set (k : string) (v : any) (m : jmap) :
  NoDup (keys m) -> NoDup (keys (map_set k v m)).
Proof.
  intros Hnd. rewrite keys_map_set.
  destruct (existsb (String.eqb k) (keys m)) eqn:Hex; [exact Hnd|].
  apply NoDup_app; [exact Hnd|repeat constructor; intros []|].
  intros x Hin [Heq|[]]. subst x.
  assert (Htrue : existsb (String.eqb k) (keys m) = true).
  { apply existsb_exists. exists k. split; [exact Hin|apply String.eqb_refl]. }
  congruence.
Qed.

Lemma keys_map_delete_incl (k : string) (m : jmap) (x : string) :
  In x (keys (map_delete k m)) -> In x (keys m).
Proof.
  induction m as [|[k0 v0] m IH]; cbn.
  - intros [].
  - destruct (String.eqb k k0); cbn.
    + intros Hin. now right.
    + intros [Heq|Hin]; [now left|right; now apply IH].
Qed.

Lemma NoDup_keys_map_delete (k : string) (m : jmap) :
  NoDup (keys m) -> NoDup (keys (map_delete k m)) /\ ~ In k (keys (map_delete k m)).
Proof.
  induction m as [|[k0 v0] m IH]; cbn; intros Hnd.
  - split; [constructor|intros []].
  - inversion Hnd as [|? ? Hnotin Hnd']; subst.
    destruct (String.eqb k k0) eqn:Hk; cbn.
    + apply String.eqb_eq in Hk. subst k0. now split.
    + apply String.eqb_neq in Hk. destruct (IH Hnd') as [Hnd'' Hnot].
      split.
      * constructor; [|exact Hnd''].
        intros Hin. apply Hnotin. now apply keys_map_delete_incl with k.
      * intros [Heq|Hin]; [now apply Hk|now apply Hnot].
Qed.

Section RewardsProperties.
Context `{Externals}.

(** X15.  What the loop over the rewards leaves in one reward: the key
    [commission] with the value null; under [postBalance] the value
    that was under [post_balance]; under [rewardType] the value that
    was under [reward_type], a number replaced by the name of the
    reward type; every key other than these five keeps its value. *)
Theorem fixReward_fields (rewardAsMap : jmap) :
  map_get "commission" (fixReward rewardAsMap) = Some JNull /\
  (forall v, map_get "post_balance" rewardAsMap = Some v ->
             map_get "postBalance" (fixReward rewardAsMap) = Some v) /\
  (forall v, map_get "reward_type" rewardAsMap = Some v ->
             map_get "rewardType" (fixReward rewardAsMap)
             = Some (match v with
                     | JNumber asFloat =>
                         JString (rentTypeToString (float64_to_int asFloat))
                     | _ => v
                     end)) /\
  (forall k, k <> "commission" -> k <> "post_balance" -> k <> "postBalance" ->
             k <> "reward_type" -> k <> "rewardType" ->
             map_get k (fixReward rewardAsMap) = map_get k rewardAsMap).
Proof.
  unfold fixReward.
  set (m1 := map_set "commission" JNull rewardAsMap).
  set (m2 := match map_get "post_balance" m1 with
             | Some v => map_delete "post_balance" (map_set "postBalance" v m1)
             | None => m1
             end).
  assert (Hpb1 : map_get "post_balance" m1 = map_get "post_balance" rewardAsMap)
    by (now apply map_get_set_neq).
  assert (Hrt1 : map_get "reward_type" m1 = map_get "reward_type" rewardAsMap)
    by (now apply map_get_set_neq).
  assert (Hc2 : map_get "commission" m2 = Some JNull).
  { unfold m2. destruct (map_get "post_balance" m1).
    - rewrite map_get_delete_neq, map_get_set_neq by reflexivity.
      apply map_get_set_eq.
    - apply map_get_set_eq. }
  assert (Hrt2 : map_get "reward_type" m2 = map_get "reward_type" rewardAsMap).
  { unfold m2. destruct (map_get "post_balance" m1).
    - now rewrite map_get_delete_neq, map_get_set_neq by reflexivity.
    - exact Hrt1. }
  assert (Hpb2 : forall v, map_get "post_balance" rewardAsMap = Some v ->
                           map_get "postBalance" m2 = Some v).
  { intros v Hv. unfold m2. rewrite Hpb1, Hv.
    rewrite map_get_delete_neq by reflexivity. apply map_get_set_eq. }
  assert (Hk2 : forall k, k <> "commission" -> k <> "post_balance" ->
                          k <> "postBalance" ->
                          map_get k m2 = map_get k rewardAsMap).
  { intros k Hc Hpb Hpb'. apply String.eqb_neq in Hc, Hpb, Hpb'.
    unfold m2. destruct (map_get "post_balance" m1); unfold m1.
    - now rewrite map_get_delete_neq, map_get_set_neq, map_get_set_neq.
    - now apply map_get_set_neq. }
  clearbody m2. clear m1 Hpb1 Hrt1.
  destruct (map_get "reward_type" m2) as [v|] eqn:Hrt.
  - set (m3 := map_delete "reward_type" (map_set "rewardType" v m2)).
    assert (H3 : map_get "rewardType" m3 = Some v).
    { unfold m3. rewrite map_get_delete_neq by reflexivity. apply map_get_set_eq. }
    assert (Hother : forall k, String.eqb k "reward_type" = false ->
                               String.eqb k "rewardType" = false ->
                               map_get k m3 = map_get k m2).
    { intros k Hk Hk'. unfold m3. now rewrite map_get_delete_neq, map_get_set_neq. }
    rewrite H3. clearbody m3.
    assert (Hfinal : forall k, String.eqb k "rewardType" = false ->
               map_get k (match v with
                          | JNumber asFloat =>
                              map_set "rewardType"
                                (JString (rentTypeToString (float64_to_int asFloat))) m3
                          | _ => m3
                          end) = map_get k m3).
    { intros k Hk. destruct v; try reflexivity. now apply map_get_set_neq. }
    split; [|split; [|split]].
    + rewrite Hfinal, Hother by reflexivity. exact Hc2.
    + intros v' Hv'. rewrite Hfinal, Hother by reflexivity. now apply Hpb2.
    + intros v' Hv'. rewrite Hv' in Hrt2. injection Hrt2 as ->.
      destruct v'; try exact H3. apply map_get_set_eq.
    + intros k Hc Hpb Hpb' Hrt' Hrt''.
      assert (Hk1 : String.eqb k "reward_type" = false) by now apply String.eqb_neq.
      assert (Hk2' : String.eqb k "rewardType" = false) by now apply String.eqb_neq.
      rewrite Hfinal, Hother by assumption. now apply Hk2.
  - split; [exact Hc2|split; [exact Hpb2|split]].
    + intros v Hv. congruence.
    + intros k Hc Hpb Hpb' _ _. now apply Hk2.
Qed.

(** X16.  On a reward whose keys are distinct, as the keys of a map are,
    the loop leaves neither [post_balance] nor [reward_type], and the
    keys stay distinct. *)
Theorem fixReward_drops_snake_keys (rewardAsMap : jmap) :
  NoDup (keys rewardAsMap) ->
  map_get "post_balance" (fixReward rewardAsMap) = None /\
  map_get "reward_type" (fixReward rewardAsMap) = None /\
  NoDup (keys (fixReward rewardAsMap)).
Proof.
  intros Hnd. unfold fixReward.
  set (m1 := map_set "commission" JNull rewardAsMap).
  assert (Hnd1 : NoDup (keys m1)) by now apply NoDup_keys_map_set.
  set (m2 := match map_get "post_balance" m1 with
             | Some v => map_delete "post_balance" (map_set "postBalance" v m1)
             | None => m1
             end).
  assert (H2 : NoDup (keys m2) /\ map_get "post_balance" m2 = None).
  { unfold m2. destruct (map_get "post_balance" m1) as [v|] eqn:Hpb.
    - destruct (@NoDup_keys_map_delete "post_balance" _
                  (@NoDup_keys_map_set "postBalance" v _ Hnd1)) as [Hnd2 Hnot].
      split; [exact Hnd2|now apply map_get_None].
    - now split. }
  destruct H2 as [Hnd2 Hpb2]. clearbody m2. clear m1 Hnd1.
  destruct (map_get "reward_type" m2) as [v|] eqn:Hrt.
  - set (m3 := map_delete "reward_type" (map_set "rewardType" v m2)).
    destruct (@NoDup_keys_map_delete "reward_type" _
                (@NoDup_keys_map_set "rewardType" v _ Hnd2)) as [Hnd3 Hnot3].
    fold m3 in Hnd3, Hnot3.
    assert (Hpb3 : map_get "post_balance" m3 = None).
    { unfold m3. now rewrite map_get_delete_neq, map_get_set_neq. }
    assert (Hrt3 : map_get "reward_type" m3 = None) by now apply map_get_None.
    clearbody m3.
    destruct (map_get "rewardType" m3) as [[| |asFloat| | |]|]; try (now repeat split).
    repeat split.
    + now rewrite map_get_set_neq.
    + now rewrite map_get_set_neq.
    + now apply NoDup_keys_map_set.
  - now repeat split.
Qed.

(** X17.  The name of a reward type is "Unknown" exactly outside 1..4,
    and the four names of 1..4 are distinct. *)
Theorem rentTypeToString_names (typ : Z) :
  (rentTypeToString typ = "Unknown" <-> ~ (1 <= typ <= 4)) /\
  (forall typ' : Z,
      1 <= typ <= 4 -> 1 <= typ' <= 4 ->
      rentTypeToString typ = rentTypeToString typ' -> typ = typ').
Proof.
  split.
  - unfold rentTypeToString.
    destruct (Z.eqb_spec typ 1); [split; [discriminate|lia]|].
    destruct (Z.eqb_spec typ 2); [split; [discriminate|lia]|].
    destruct (Z.eqb_spec typ 3); [split; [discriminate|lia]|].
    destruct (Z.eqb_spec typ 4); [split; [discriminate|lia]|].
    split; [lia|reflexivity].
  - intros typ' Ht Ht'.
    assert (Hc : typ = 1 \/ typ = 2 \/ typ = 3 \/ typ = 4) by lia.
    assert (Hc' : typ' = 1 \/ typ' = 2 \/ typ' = 3 \/ typ' = 4) by lia.
    destruct Hc as [-> | [-> | [-> | ->]]];
      destruct Hc' as [-> | [-> | [-> | ->]]];
      cbn; intros Heq; try reflexivity; discriminate.
Qed.

Lemma fixRewards_Some (rewardsAsArray fixed : list any) :
  fixRewards rewardsAsArray = Some fixed ->
  exists maps : list jmap,
    rewardsAsArray = map JObject maps /\
    fixed = map (fun rewardAsMap => JObject (fixReward rewardAsMap)) maps.
Proof.
  revert fixed. induction rewardsAsArray as [|reward rest IH]; intros fixed; cbn.
  - intros [= <-]. now exists [].
  - destruct reward as [| | | | |rewardAsMap]; try discriminate.
    destruct (fixRewards rest) as [rest'|]; [|discriminate].
    intros [= <-]. destruct (IH rest' eq_refl) as (maps & -> & ->).
    now exists (rewardAsMap :: maps).
Qed.

(** X18.  The rewards of a reply are null when the block links the
    dummy CID as its rewards; otherwise they are null or an array with
    one object for each reward of the parsed rewards, each the reward
    as the loop leaves it. *)
Theorem getBlock_rewards_of_reply (req : Request.t)
    (resp : GetBlockResponse.t StatusMeta) :
  getBlock req = Replied resp ->
  exists (params : GetBlockRequest.t) (block : Block.t),
    parseGetBlockRequest (Request.Params req) = Ret (Some params, None) /\
    GetBlock (GetBlockRequest.Slot params) = Ok block /\
    (Block.Rewards block = DummyCID -> GetBlockResponse.Rewards resp = JNull) /\
    (GetBlockResponse.Rewards resp = JNull \/
     exists (node : Rewards.t) (buf uncompressed : bytes) (actualRewards : ParsedRewards)
            (doc : RawMessage) (m : jmap) (maps : list jmap),
       GetRewardsByCid (Block.Rewards block) = Ok node /\
       reassemble GetDataFrameByCid (Rewards.Data node) = Ok buf /\
       decompressZstd buf = Ok uncompressed /\
       ParseRewards uncompressed = Ok actualRewards /\
       json_Marshal actualRewards = Ok doc /\
       json_Unmarshal_map doc = Ok m /\
       map_get "rewards" m = Some (JArray (map JObject maps)) /\
       GetBlockResponse.Rewards resp
       = JArray (map (fun rewardAsMap => JObject (fixReward rewardAsMap)) maps)).
Proof.
  intros Hreq.
  destruct (getBlock_Replied_stages req Hreq)
    as (params & block & st & rewards & Hparse & Hblock & _ & Hrewards & Hresp).
  apply getBlock_respond_fields in Hresp.
  destruct Hresp as (txs & prev & _ & _ & ->).
  exists params, block. repeat split; try assumption;
    cbn [GetBlockResponse.Rewards]; unfold getBlock_rewards in Hrewards.
  - intros Hdummy. rewrite Hdummy in Hrewards. unfold Cid_Equals in Hrewards.
    rewrite String.eqb_refl in Hrewards. cbn in Hrewards. now injection Hrewards as <-.
  - destruct (negb (Cid_Equals (Block.Rewards block) DummyCID));
      [|left; now injection Hrewards as <-].
    destruct (GetRewardsByCid (Block.Rewards block)) as [node|] eqn:Hnode;
      [|discriminate].
    destruct (reassemble GetDataFrameByCid (Rewards.Data node)) as [buf|] eqn:Hbuf;
      [|discriminate].
    destruct (decompressZstd buf) as [u|] eqn:Hz; [|discriminate].
    destruct (ParseRewards u) as [r|] eqn:Hr; [|left; now injection Hrewards as <-].
    destruct (json_Marshal r) as [doc|] eqn:Hdoc; [|discriminate].
    destruct (json_Unmarshal_map doc) as [m|] eqn:Hm; [|discriminate].
    unfold rewardsFromMap in Hrewards.
    destruct (map_get "rewards" m) as [[| | | |rewardsAsArray|]|] eqn:Hkey;
      try discriminate; [|left; now injection Hrewards as <-].
    destruct (fixRewards rewardsAsArray) as [fixed|] eqn:Hfixed; [|discriminate].
    injection Hrewards as <-.
    destruct (fixRewards_Some _ Hfixed) as (maps & -> & ->).
    right. exists node, buf, u, r, doc, m, maps. now repeat split.
Qed.

End RewardsProperties.

(** ** Frames and transactions *)

Section TransactionProperties.
Context `{Externals}.

(** X19.  The bytes of a reassembled payload: the head's bytes come
    first, a head with [Total] at most 1 gives the head's bytes alone
    whatever [Next] links, and the length is the length of the head's
    bytes plus the lengths of the bytes of the frames fetched. *)
Theorem reassemble_length (getter : Cid -> result DataFrame.t) (head : DataFrame.t)
    (out : bytes) :
  reassemble getter head = Ok out ->
  exists frames : list DataFrame.t,
    Forall2 (fun cid frame => getter cid = Ok frame)
      (if DataFrame.Total head >? 1 then DataFrame.Next head else []) frames /\
    out = DataFrame.Data head ++ List.concat (map DataFrame.Data frames) /\
    len out
    = len (DataFrame.Data head)
      + fold_right Z.add 0 (map (fun frame => len (DataFrame.Data frame)) frames).
Proof.
  unfold reassemble. intros Hout.
  assert (Hframes : exists frames : list DataFrame.t,
             Forall2 (fun cid frame => getter cid = Ok frame)
               (if DataFrame.Total head >? 1 then DataFrame.Next head else []) frames /\
             out = DataFrame.Data head ++ List.concat (map DataFrame.Data frames)).
  { destruct (DataFrame.Total head >? 1).
    - now apply appendFrames_ok.
    - injection Hout as <-. exists []. split; [constructor|].
      cbn. now rewrite app_nil_r. }
  destruct Hframes as (frames & Hall & ->).
  exists frames. repeat split; try assumption.
  unfold len. rewrite length_app, Nat2Z.inj_add. f_equal.
  clear Hall Hout. induction frames as [|frame rest IH]; cbn.
  - reflexivity.
  - rewrite length_app, Nat2Z.inj_add, IH. reflexivity.
Qed.

(** X20.  [parseTransactionAndMetaFromNode] returns an error exactly in
    three cases: a frame of the transaction data cannot be fetched, the
    transaction bytes do not parse, or the transaction has signatures
    and a frame of the metadata cannot be fetched.  The error comes
    with the zero transaction and no metadata. *)
Theorem parseTransactionAndMetaFromNode_error (node : Transaction.t)
    (getter : Cid -> result DataFrame.t) (tx : SolanaTransaction)
    (meta : option StatusMeta) (e : error) :
  parseTransactionAndMetaFromNode node getter = (tx, meta, Some e) <->
  tx = SolanaTransaction_zero /\ meta = None /\
  (reassemble getter (Transaction.Data node) = Err e \/
   (exists buf, reassemble getter (Transaction.Data node) = Ok buf /\
                UnmarshalBin buf = Err e) \/
   (exists buf tx', reassemble getter (Transaction.Data node) = Ok buf /\
                    UnmarshalBin buf = Ok tx' /\
                    Signatures_len tx' <> 0 /\
                    reassemble getter (Transaction.Metadata node) = Err e)).
Proof.
  unfold parseTransactionAndMetaFromNode. split.
  - destruct (reassemble getter (Transaction.Data node)) as [buf|e0] eqn:Hbuf.
    + destruct (UnmarshalBin buf) as [tx'|e1] eqn:Htx.
      * destruct (Z.eqb_spec (Signatures_len tx') 0) as [Hz|Hnz]; [discriminate|].
        destruct (reassemble getter (Transaction.Metadata node)) as [metaBuf|e2]
          eqn:Hmeta.
        -- destruct (len metaBuf >? 0); [|discriminate].
           destruct (decompressZstd metaBuf) as [u|]; [|discriminate].
           destruct (ParseAnyTransactionStatusMeta u); discriminate.
        -- intros [= <- <- <-]. repeat split. right. right. now exists buf, tx'.
      * intros [= <- <- <-]. repeat split. right. left. now exists buf.
    + intros [= <- <- <-]. repeat split. now left.
  - intros (-> & -> & [Hd|[(buf & Hd & Hu)|(buf & tx' & Hd & Hu & Hs & Hm)]]).
    + now rewrite Hd.
    + now rewrite Hd, Hu.
    + rewrite Hd, Hu. apply Z.eqb_neq in Hs. now rewrite Hs, Hm.
Qed.

(** X21.  When the transaction bytes parse to a transaction with
    signatures and the metadata frames can be fetched, the transaction
    is returned with a nil error whatever the metadata bytes are: the
    metadata is the parsed status when the bytes are not empty,
    decompress and parse, and absent in every other case. *)
Theorem parseTransactionAndMetaFromNode_metadata (node : Transaction.t)
    (getter : Cid -> result DataFrame.t) (buf metaBuf : bytes)
    (tx : SolanaTransaction) :
  reassemble getter (Transaction.Data node) = Ok buf ->
  UnmarshalBin buf = Ok tx ->
  Signatures_len tx <> 0 ->
  reassemble getter (Transaction.Metadata node) = Ok metaBuf ->
  exists meta : option StatusMeta,
    parseTransactionAndMetaFromNode node getter = (tx, meta, None) /\
    (forall status, meta = Some status <->
                    metaBuf <> [] /\
                    exists uncompressedMeta,
                      decompressZstd metaBuf = Ok uncompressedMeta /\
                      ParseAnyTransactionStatusMeta uncompressedMeta = Ok status).
Proof.
  intros Hbuf Htx Hsig Hmeta. unfold parseTransactionAndMetaFromNode.
  apply Z.eqb_neq in Hsig. rewrite Hbuf, Htx, Hsig, Hmeta.
  destruct metaBuf as [|b metaBuf'].
  - exists None. split; [reflexivity|]. intros status. split; [discriminate|].
    intros [Hne _]. now contradiction Hne.
  - replace (len (b :: metaBuf') >? 0) with true
      by (symmetry; apply Z.gtb_lt; unfold len; cbn [List.length]; lia).
    destruct (decompressZstd (b :: metaBuf')) as [u|e] eqn:Hz.
    + destruct (ParseAnyTransactionStatusMeta u) as [status|e] eqn:Hstatus.
      * exists (Some status). split; [reflexivity|]. intros status'. split.
        -- intros [= <-]. split; [discriminate|]. now exists u.
        -- intros (_ & u' & [= <-] & Hs). congruence.
      * exists None. split; [reflexivity|]. intros status'. split; [discriminate|].
        intros (_ & u' & [= <-] & Hs). congruence.
    + exists None. split; [reflexivity|]. intros status'. split; [discriminate|].
      intros (_ & u' & Hu & _). discriminate.
Qed.

End TransactionProperties.

(** ** The keys of a converted map *)

Lemma In_keys_map_set (k : string) (v : any) (m : jmap) (x : string) :
  In x (keys (map_set k v m)) <-> x = k \/ In x (keys m).
Proof.
  rewrite keys_map_set.
  destruct (existsb (String.eqb k) (keys m)) eqn:Hex.
  - split; [now right|]. intros [->|Hin]; [|exact Hin].
    apply existsb_exists in Hex. destruct Hex as (y & Hy & Heq).
    apply String.eqb_eq in Heq. now subst y.
  - rewrite in_app_iff. cbn. split.
    + intros [Hin|[<-|[]]]; [now right|now left].
    + intros [->|Hin]; [right; now left|now left].
Qed.


Section ConvertedKeys.
Context `{Externals}.

Lemma camelLoop_keys (m : jmap) :
  forall newMap : jmap,
    (NoDup (keys newMap) -> NoDup (keys (camelLoop m newMap))) /\
    (forall k, In k (keys (camelLoop m newMap)) <->
               In k (keys newMap) \/
               exists k0, In k0 (keys m) /\ k = toLowerCamelCase k0).
Proof.
  unfold camelLoop.
  induction m as [|[k0 v0] m IH]; intros newMap; cbn [fold_left].
  - split; [trivial|]. intros k. split; [now left|].
    intros [Hin|(k0 & [] & _)]. exact Hin.
  - destruct (IH (map_set (toLowerCamelCase (fst (k0, v0)))
                    (storedValue (snd (k0, v0))) newMap)) as [Hnd Hin].
    cbn [fst snd] in *. split.
    + intros Hnew. apply Hnd. now apply NoDup_keys_map_set.
    + intros k. rewrite Hin, In_keys_map_set. cbn [keys map fst]. split.
      * intros [[->|Hk]|(k1 & Hk1 & ->)].
        -- right. exists k0. split; [now left|reflexivity].
        -- now left.
        -- right. exists k1. split; [now right|reflexivity].
      * intros [Hk|(k1 & [<-|Hk1] & ->)].
        -- left. now right.
        -- left. now left.
        -- right. now exists k1.
Qed.





(** X22.  The keys of the map that [MapToCamelCase] returns are
    distinct, and they are exactly the lower-camel-case forms of the
    keys of the map it is given: no key is lost and none is made up. *)
Theorem MapToCamelCase_keys (m : jmap) :
  NoDup (keys (MapToCamelCase m)) /\
  (forall k, In k (keys (MapToCamelCase m)) <->
             exists k0, In k0 (keys m) /\ k = toLowerCamelCase k0).
Proof.
  rewrite MapToCamelCase_unfold. fold (camelLoop m []).
  destruct (camelLoop_keys m []) as [Hnd Hin]. split.
  - apply Hnd. constructor.
  - intros k. rewrite Hin. split; [|now right].
    intros [[]|Hk]. exact Hk.
Qed.



End ConvertedKeys.

(** ** The command line *)

Section CommandLineProperties.
Variables CarReader File CompactIndex CompactIndex36 : Type.
Variable carv2_OpenReader : string -> result CarReader.
Variable os_Open : string -> result File.
Variable compactindex_Open : File -> result CompactIndex.
Variable compactindex36_Open : File -> result CompactIndex36.
Variable newRPCServer :
  string -> CarReader -> CompactIndex -> CompactIndex36 -> CompactIndex36 -> option error.

Local Abbreviation action :=
  (Action carv2_OpenReader os_Open compactindex_Open compactindex36_Open newRPCServer).

(** X24.  The command ends with a [cli.Exit] exactly when one of its
    first four arguments is missing or empty; the exit code is then 1,
    the message names the first such argument, and no file is opened:
    the result does not depend on what opening would give. *)
Theorem Action_missing_argument (listenOn : string) (args : list string) :
  (forall message exitCode,
      action listenOn args = Some (cli_Exit message exitCode) ->
      exitCode = 1 /\
      (Args_Get args 0 = "" \/ Args_Get args 1 = "" \/
       Args_Get args 2 = "" \/ Args_Get args 3 = "")) /\
  (Args_Get args 0 = "" ->
   action listenOn args = Some (cli_Exit "Must provide a CAR filepath" 1)) /\
  (Args_Get args 0 <> "" -> Args_Get args 1 = "" ->
   action listenOn args
   = Some (cli_Exit "Must provide a CID-to-offset index filepath" 1)) /\
  (Args_Get args 0 <> "" -> Args_Get args 1 <> "" -> Args_Get args 2 = "" ->
   action listenOn args
   = Some (cli_Exit "Must provide a slot-to-CID index filepath" 1)) /\
  (Args_Get args 0 <> "" -> Args_Get args 1 <> "" -> Args_Get args 2 <> "" ->
   Args_Get args 3 = "" ->
   action listenOn args
   = Some (cli_Exit "Must provide a signature-to-CID index filepath" 1)).
Proof.
  unfold Action.
  destruct (String.eqb_spec (Args_Get args 0) "") as [H0|H0].
  { repeat split; try (intros; first [congruence|contradiction]).
    now left. }
  destruct (String.eqb_spec (Args_Get args 1) "") as [H1|H1].
  { repeat split; try (intros; first [congruence|contradiction]).
    right. now left. }
  destruct (String.eqb_spec (Args_Get args 2) "") as [H2|H2].
  { repeat split; try (intros; first [congruence|contradiction]).
    right. right. now left. }
  destruct (String.eqb_spec (Args_Get args 3) "") as [H3|H3].
  { repeat split; try (intros; first [congruence|contradiction]).
    right. right. now right. }
  split; [|repeat split; intros; contradiction].
  intros message exitCode.
  destruct (carv2_OpenReader (Args_Get args 0)); [|discriminate].
  destruct (os_Open (Args_Get args 1)) as [f1|]; [|discriminate].
  destruct (compactindex_Open f1); [|discriminate].
  destruct (os_Open (Args_Get args 2)) as [f2|]; [|discriminate].
  destruct (compactindex36_Open f2); [|discriminate].
  destruct (os_Open (Args_Get args 3)) as [f3|]; [|discriminate].
  destruct (compactindex36_Open f3); [|discriminate].
  destruct (newRPCServer _ _ _ _ _); discriminate.
Qed.

(** X25.  The server is started exactly when the four arguments are
    given and the CAR file, the three index files and the three indexes
    all open; it is started with the CAR of the first argument, the
    CID-to-offset index of the second, the slot-to-CID index of the
    third and the signature-to-CID index of the fourth, and its error
    is the error of the command. *)
Theorem Action_starts_server (listenOn : string) (args : list string)
    (result : option error) :
  (exists (carReader : CarReader) (f1 f2 f3 : File) (cidToOffsetIndex : CompactIndex)
          (slotToCidIndex sigToCidIndex : CompactIndex36),
      Args_Get args 0 <> "" /\ Args_Get args 1 <> "" /\
      Args_Get args 2 <> "" /\ Args_Get args 3 <> "" /\
      carv2_OpenReader (Args_Get args 0) = Ok carReader /\
      os_Open (Args_Get args 1) = Ok f1 /\
      compactindex_Open f1 = Ok cidToOffsetIndex /\
      os_Open (Args_Get args 2) = Ok f2 /\
      compactindex36_Open f2 = Ok slotToCidIndex /\
      os_Open (Args_Get args 3) = Ok f3 /\
      compactindex36_Open f3 = Ok sigToCidIndex /\
      newRPCServer listenOn carReader cidToOffsetIndex slotToCidIndex sigToCidIndex
      = result) ->
  action listenOn args = option_map otherError result.
Proof.
  intros (carReader & f1 & f2 & f3 & i1 & i2 & i3 &
          H0 & H1 & H2 & H3 & Hcar & Hf1 & Hi1 & Hf2 & Hi2 & Hf3 & Hi3 & <-).
  unfold Action.
  apply String.eqb_neq in H0, H1, H2, H3.
  now rewrite H0, H1, H2, H3, Hcar, Hf1, Hi1, Hf2, Hi2, Hf3, Hi3.
Qed.

(** X26.  When the four arguments are given and something fails to
    open, the command returns an error that is not a [cli.Exit], and
    the server is not started: the error text starts with "failed to
    open". *)
Theorem Action_open_failure (listenOn : string) (args : list string) :
  Args_Get args 0 <> "" -> Args_Get args 1 <> "" ->
  Args_Get args 2 <> "" -> Args_Get args 3 <> "" ->
  (exists e, carv2_OpenReader (Args_Get args 0) = Err e) \/
  (exists i e, (1 <= i <= 3)%nat /\ os_Open (Args_Get args i) = Err e) \/
  (exists f e, os_Open (Args_Get args 1) = Ok f /\ compactindex_Open f = Err e) \/
  (exists i f e, (2 <= i <= 3)%nat /\ os_Open (Args_Get args i) = Ok f /\
                 compactindex36_Open f = Err e) ->
  exists err, action listenOn args = Some (otherError err) /\
              prefix "failed to open" err = true.
Proof.
  intros H0 H1 H2 H3 Hfail. unfold Action.
  apply String.eqb_neq in H0, H1, H2, H3. rewrite H0, H1, H2, H3.
  destruct (carv2_OpenReader (Args_Get args 0)) as [car|e0] eqn:Hcar;
    [|eexists; split; reflexivity].
  destruct (os_Open (Args_Get args 1)) as [f1|e1] eqn:Hf1;
    [|eexists; split; reflexivity].
  destruct (compactindex_Open f1) as [i1|e2] eqn:Hi1;
    [|eexists; split; reflexivity].
  destruct (os_Open (Args_Get args 2)) as [f2|e3] eqn:Hf2;
    [|eexists; split; reflexivity].
  destruct (compactindex36_Open f2) as [i2|e4] eqn:Hi2;
    [|eexists; split; reflexivity].
  destruct (os_Open (Args_Get args 3)) as [f3|e5] eqn:Hf3;
    [|eexists; split; reflexivity].
  destruct (compactindex36_Open f3) as [i3|e6] eqn:Hi3;
    [|eexists; split; reflexivity].
  exfalso.
  destruct Hfail as [(e & He)|[(i & e & Hi & He)|[(f & e & Hf & He)|(i & f & e & Hi & Hf & He)]]].
  - congruence.
  - assert (Hc : i = 1%nat \/ i = 2%nat \/ i = 3%nat) by lia.
    destruct Hc as [-> | [-> | ->]]; congruence.
  - congruence.
  - assert (Hc : i = 2%nat \/ i = 3%nat) by lia.
    destruct Hc as [-> | ->]; congruence.
Qed.

End CommandLineProperties.

(** * The server on the demo archive *)

Import Demo.

(** C1.  At an offset whose record carries another CID than the wanted
    one, [GetNodeByOffset] returns no payload and a nil error: the read
    is not reported as failed.  Evaluated on the record at offset 99 of
    the demo archive, filed under the CID "stale". *)
Theorem GetNodeByOffset_cid_mismatch_returns_nil_error :
  ReadNode 99 = Ok ("other", [Byte.xff]) /\
  Cid_Equals "other" "stale" = false /\
  GetNodeByOffset "stale" 99 = ([], None) /\
  GetNodeByCid "stale" = ([], None).
Proof. repeat split. Qed.

(** C3, on the demo archive: a head that declares three frames and
    links one is reassembled from two. *)
Lemma reassemble_multi_frame_witness :
  reassemble GetDataFrameByCid shortHead = Ok [Byte.x0a; Byte.x0b].
Proof.
  apply reassemble_multi_frame.
  - simpl. lia.
  - exists [DataFrame.mk [Byte.x0b] 3 1 []]. split.
    + repeat constructor.
    + reflexivity.
Defined.

(** C3, as the specification states it, fails: one continuation frame
    plus the head is not the declared total of three, and the
    reassembly succeeds. *)
Lemma reassemble_frame_count_unchecked :
  DataFrame.Total shortHead > 1 /\
  len (DataFrame.Next shortHead) + 1 <> DataFrame.Total shortHead /\
  reassemble GetDataFrameByCid shortHead = Ok [Byte.x0a; Byte.x0b].
Proof. cbn. repeat split; lia. Qed.

(** C2, on the demo archive.  The entry of slots 1 and 2 links a
    transaction that is not in the archive and the entries stage goes
    through with the other one; the second entry of slot 10, the
    rewards node of slot 11 and the second rewards frame of slot 12 are
    not in the archive and each request ends with the Internal error;
    the rewards of slot 2 are rejected by the rewards parser and the
    assembly goes on with null rewards. *)
Lemma getBlock_failure_policy_witness :
  (snd (entryTask block2 0 "entry1" ([], [])) = None /\
   snd (fst (entryTask block2 0 "entry1" ([], []))) = [tx1]) /\
  (exists st, getBlock_entries block2 = Continue st /\ snd st = [tx1]) /\
  getBlock (getBlockRequest [JNumber 10]) = RepliedWithError (-32603) "Internal error" /\
  getBlock (getBlockRequest [JNumber 11]) = RepliedWithError (-32603) "Internal error" /\
  getBlock (getBlockRequest [JNumber 12]) = RepliedWithError (-32603) "Internal error" /\
  getBlock (getBlockRequest [JNumber 2])
  = getBlock_respond block2 (uint64 1700000000) ([Byte.x68; Byte.x31], [tx1]) JNull.
Proof.
  pose proof (@getBlock_failure_policy demo (getBlockRequest [JNumber 2])
                (GetBlockRequest.mk 2) block2 eq_refl eq_refl)
    as (Htask & Hentries & _ & Hrewards2).
  pose proof (@getBlock_failure_policy demo (getBlockRequest [JNumber 10])
                (GetBlockRequest.mk 10) block10 eq_refl eq_refl)
    as (_ & _ & Hentry & _).
  pose proof (@getBlock_failure_policy demo (getBlockRequest [JNumber 11])
                (GetBlockRequest.mk 11) block11 eq_refl eq_refl)
    as (_ & _ & _ & Hrewards11).
  pose proof (@getBlock_failure_policy demo (getBlockRequest [JNumber 12])
                (GetBlockRequest.mk 12) block12 eq_refl eq_refl)
    as (_ & _ & _ & Hrewards12).
  split; [|split; [|split; [|split; [|split]]]].
  - exact (Htask 0 "entry1" entry1 ([], []) eq_refl).
  - apply Hentries. intros c [<-|[]]. now exists entry1.
  - exact (Hentry "lost" "not found" (or_intror (or_introl eq_refl)) eq_refl).
  - destruct (Hrewards11 ([Byte.x68; Byte.x31], [tx1]) eq_refl eq_refl) as (Hnode & _ & _).
    exact (Hnode "not found" eq_refl).
  - destruct (Hrewards12 ([Byte.x68; Byte.x31], [tx1]) eq_refl eq_refl) as (_ & Hframe & _).
    apply (Hframe (Rewards.mk (DataFrame.mk [Byte.xbc] 2 0 ["lostFrame"])) "lostFrame"
             "not found" eq_refl).
    + cbn. lia.
    + now left.
    + reflexivity.
  - destruct (Hrewards2 ([Byte.x68; Byte.x31], [tx1]) eq_refl eq_refl) as (_ & _ & Hparser).
    exact (Hparser (Rewards.mk (head1 Byte.xb2)) [Byte.xb2] [Byte.xb2]
             "proto: cannot parse invalid wire-format data"
             eq_refl eq_refl eq_refl eq_refl).
Defined.

(** C2, as the specification states it, fails: the rewards parser
    rejects the rewards payload of slot 2 and the request is answered
    with a block whose rewards are null. *)
Lemma getBlock_rewards_parse_failure_not_fatal :
  ParseRewards [Byte.xb2] = Err "proto: cannot parse invalid wire-format data" /\
  getBlock (getBlockRequest [JNumber 2]) = Replied (response1 1700000000 0 "" JNull) /\
  getBlock (getBlockRequest [JNumber 2]) <> RepliedWithError (-32603) "Internal error".
Proof. repeat split. discriminate. Qed.

(** C4.  A transaction node whose bytes parse to a transaction without
    signatures: [parseTransactionAndMetaFromNode] returns the zero
    transaction with a nil error, so the caller is not told of a
    failure.  Evaluated on the node "tx6" of the demo archive. *)
Theorem parseTransactionAndMetaFromNode_empty_signatures_nil_error :
  reassemble GetDataFrameByCid (Transaction.Data tx6) = Ok [Byte.x00] /\
  UnmarshalBin [Byte.x00] = Ok 0 /\
  Signatures_len 0 = 0 /\
  parseTransactionAndMetaFromNode tx6 GetDataFrameByCid
  = (SolanaTransaction_zero, None, None).
Proof. repeat split. Qed.



(** C7, on the demo archive: the rewards of slot 3 parse to an object
    without a "rewards" key. *)
Lemma getBlock_rewards_key_absent_witness :
  getBlock_rewards block3 = Continue JNull /\
  getBlock (getBlockRequest [JNumber 3])
  = getBlock_respond block3 (uint64 1700000001) ([Byte.x68; Byte.x31], [tx1]) JNull /\
  (forall resp, getBlock (getBlockRequest [JNumber 3]) = Replied resp ->
                GetBlockResponse.Rewards resp = JNull).
Proof.
  exact (@getBlock_rewards_key_absent demo (getBlockRequest [JNumber 3])
           (GetBlockRequest.mk 3) block3 ([Byte.x68; Byte.x31], [tx1])
           (Rewards.mk (head1 Byte.xb3)) [Byte.xb3] [Byte.xb3]
           (JObject [("num_partitions", JNull)]) (JObject [("num_partitions", JNull)])
           [("num_partitions", JNull)]
           eq_refl eq_refl eq_refl eq_refl eq_refl eq_refl eq_refl eq_refl eq_refl
           eq_refl eq_refl).
Defined.

(** C7, as the specification states it, fails: the parsed rewards of
    slot 3 have no "rewards" key and the request is answered with a
    block whose rewards are null. *)
Lemma getBlock_rewards_key_absent_not_fatal :
  ParseRewards [Byte.xb3] = Ok (JObject [("num_partitions", JNull)]) /\
  map_get "rewards" [("num_partitions", JNull)] = None /\
  getBlock (getBlockRequest [JNumber 3]) = Replied (response1 1700000001 0 "" JNull).
Proof. repeat split. Qed.

(** C8, on the demo archive: slot 8, whose parent is slot 1 and whose
    only entry has the hash [h1]. *)
Lemma getBlock_parentSlot_and_blockhash_witness :
  getBlock (getBlockRequest [JNumber 8])
  = Replied (response1 1700000003 1 "h1" rewards8) /\
  GetBlockResponse.ParentSlot (response1 1700000003 1 "h1" rewards8)
  = SlotMeta.Parent_slot (Block.Meta block8) /\
  exists entryNode : Entry.t,
    GetEntryByCid "entry1" = Ok entryNode /\
    GetBlockResponse.Blockhash (response1 1700000003 1 "h1" rewards8)
    = Hash_String (HashFromBytes (Entry.Hash entryNode)).
Proof.
  split; [reflexivity|].
  destruct (@getBlock_parentSlot_and_blockhash demo (getBlockRequest [JNumber 8])
              (response1 1700000003 1 "h1" rewards8) eq_refl)
    as (params & block & Hparse & Hblock & Hparent & Hhash).
  injection Hparse as <-.
  assert (Hb : block = block8) by (cbv in Hblock; now injection Hblock as <-).
  subst block. split.
  - apply Hparent. cbn. lia.
  - apply Hhash. reflexivity.
Defined.

(** On the demo archive: a map in a slice, and the key [reward_type]. *)
Lemma MapToCamelCase_reached_keys_witness :
  camelized (JObject (MapToCamelCase nestedOnce)) /\
  matchesKeyCase (toLowerCamelCase "reward_type") = true.
Proof.
  destruct (@MapToCamelCase_reached_keys demo nestedOnce) as (Hkeys & _ & Hcase).
  split; [exact Hkeys|exact (Hcase "reward_type" eq_refl)].
Defined.

(** C9.  [MapToCamelCase] does not reach a map inside a slice that is
    itself an element of a slice: the key [inner_key] is left in snake
    case and the result breaks the key-case law; with one level of
    slice less the key is rewritten.  Evaluated on a map of the demo. *)
Theorem MapToCamelCase_slice_in_slice_untouched :
  MapToCamelCase nestedTwice
  = [("outerKey", JArray [JArray [JObject [("inner_key", JNull)]]])] /\
  allKeysMatch (JObject (MapToCamelCase nestedTwice)) = false /\
  Reply (Ok nestedTwice) (Some (fun m => m))
  = Ok [("outerKey", JArray [JArray [JObject [("inner_key", JNull)]]])] /\
  MapToCamelCase nestedOnce = [("outerKey", JArray [JObject [("innerKey", JNull)]])].
Proof. repeat split. Qed.


(** * Further properties, on the demo archives *)

(** X1, on the demo archive: the record of the block of slot 1. *)
Lemma GetNodeByOffset_payload_iff_witness :
  GetNodeByOffset "block1" 0 = ([Byte.x01], None) <->
  (exists u, DataReader = Ok u) /\ ReadNode 0 = Ok ("block1", [Byte.x01]).
Proof.
  apply (@GetNodeByOffset_payload_iff demo "block1" 0 [Byte.x01]). discriminate.
Defined.

(** X3, on the demo archive: the block of slot 1. *)
Lemma GetBlock_provenance_witness :
  exists (cid : Cid) (offset : Z) (data : bytes),
    findCidFromSlot 1 = Ok cid /\
    findOffsetFromCid cid = Ok offset /\
    DecodeBlock data = Ok (Block.mk 1 ["entry1"] (SlotMeta.mk 0 (-1)) dummy) /\
    (data = [] \/ ReadNode offset = Ok (cid, data)).
Proof.
  exact (@GetBlock_provenance demo 1
           (Block.mk 1 ["entry1"] (SlotMeta.mk 0 (-1)) dummy) eq_refl).
Defined.

(** X4, on the second archive: the transaction of the one signature of
    its signature index. *)
Lemma GetTransaction_provenance_witness :
  exists (cid : Cid) (offset : Z) (data : bytes),
    @findCidFromSignature DemoFront.front DemoFront.signature1 = Ok cid /\
    @findOffsetFromCid DemoFront.front cid = Ok offset /\
    @DecodeTransaction DemoFront.front data = Ok tx1 /\
    (data = [] \/ @ReadNode DemoFront.front offset = Ok (cid, data)).
Proof.
  exact (@GetTransaction_provenance DemoFront.front DemoFront.signature1 tx1 eq_refl).
Defined.

(** X5, on the demo archive: a CID that the index does not know. *)
Lemma typed_getters_unknown_cid_witness :
  GetEntryByCid "missing" = Err "not found" /\
  GetTransactionByCid "missing" = Err "not found" /\
  GetDataFrameByCid "missing" = Err "not found" /\
  GetRewardsByCid "missing" = Err "not found".
Proof.
  exact (@typed_getters_unknown_cid demo "missing" "not found" eq_refl).
Defined.

(** X8, on the demo archive: slot 4 is not in the slot index. *)
Lemma getBlock_error_replies_witness :
  (-32603 = -32602 /\ "Failed to get block" = "Invalid params") \/
  (-32603 = -32603 /\ "Failed to get block" = "Failed to get block") \/
  (-32603 = -32603 /\ "Failed to get block" = "Internal error").
Proof.
  exact (@getBlock_error_replies demo (getBlockRequest [JNumber 4]) (-32603)
           "Failed to get block" eq_refl).
Defined.

(** X12, on the second archive: the block of slot 20 has no entries. *)
Lemma getBlock_block_without_entries_witness :
  @getBlock DemoFront.front (getBlockRequest [JNumber 20])
  = Replied DemoFront.response20 /\
  GetBlockResponse.Blockhash DemoFront.response20
  = @Hash_String DemoFront.front (@SolanaHash_zero DemoFront.front) /\
  GetBlockResponse.Transactions DemoFront.response20 = [].
Proof.
  split; [reflexivity|].
  exact (@getBlock_block_without_entries DemoFront.front (getBlockRequest [JNumber 20])
           (GetBlockRequest.mk 20) DemoFront.block20 DemoFront.response20
           eq_refl eq_refl eq_refl eq_refl).
Defined.

(** X13, on the demo archive: slot 8, whose parent is slot 1, and slot 1,
    whose parent slot is 0. *)
Lemma getBlock_previousBlockhash_of_reply_witness :
  (exists (parentBlock : Block.t) (lastEntryCid : Cid) (entryNode : Entry.t),
      GetBlock (uint64 (SlotMeta.Parent_slot (Block.Meta block8))) = Ok parentBlock /\
      index (Block.Entries parentBlock) (len (Block.Entries parentBlock) - 1)
      = Some lastEntryCid /\
      GetEntryByCid lastEntryCid = Ok entryNode /\
      GetBlockResponse.PreviousBlockhash (response1 1700000003 1 "h1" rewards8)
      = Hash_String (HashFromBytes (Entry.Hash entryNode))) /\
  GetBlockResponse.PreviousBlockhash (response1 18446744073709551615 0 "" JNull) = "".
Proof.
  split.
  - destruct (@getBlock_previousBlockhash_of_reply demo (getBlockRequest [JNumber 8])
                (response1 1700000003 1 "h1" rewards8) eq_refl)
      as (params & block & Hparse & Hblock & _ & Hparent).
    injection Hparse as <-.
    assert (Hb : block = block8) by (cbv in Hblock; now injection Hblock as <-).
    subst block. apply Hparent. discriminate.
  - destruct (@getBlock_previousBlockhash_of_reply demo (getBlockRequest [JNumber 1])
                (response1 18446744073709551615 0 "" JNull) eq_refl)
      as (params & block & Hparse & Hblock & Hzero & _).
    injection Hparse as <-. cbv in Hblock. injection Hblock as <-.
    apply Hzero. reflexivity.
Defined.

(** X14, on the demo archive: the block of slot 1, one of whose two
    transactions is not in the archive. *)
Lemma getBlock_transactions_of_reply_witness :
  exists (params : GetBlockRequest.t) (block : Block.t),
    parseGetBlockRequest (Request.Params (getBlockRequest [JNumber 1]))
    = Ret (Some params, None) /\
    GetBlock (GetBlockRequest.Slot params) = Ok block /\
    GetBlockResponse.BlockHeight (response1 18446744073709551615 0 "" JNull) = 0 /\
    exists allTransactionNodes : list Transaction.t,
    Permutation allTransactionNodes
      (flat_map entryTransactions (Block.Entries block)) /\
    Forall2
      (fun (node : Transaction.t) (txResp : GetTransactionResponse.t StatusMeta) =>
         GetTransactionResponse.Blocktime txResp = None /\
         GetTransactionResponse.Slot txResp = None /\
         exists (tx : SolanaTransaction) (meta : option StatusMeta) (b64Tx : string),
           parseTransactionAndMetaFromNode node GetDataFrameByCid = (tx, meta, None) /\
           ToBase64 tx = Ok b64Tx /\
           GetTransactionResponse.Meta txResp = meta /\
           GetTransactionResponse.Transaction txResp
           = [JString b64Tx; JString "base64"])
      allTransactionNodes
      (GetBlockResponse.Transactions (response1 18446744073709551615 0 "" JNull)).
Proof.
  exact (@getBlock_transactions_of_reply demo (getBlockRequest [JNumber 1])
           (response1 18446744073709551615 0 "" JNull) eq_refl).
Defined.

(** X16, on a reward with the two snake-case keys. *)
Lemma fixReward_drops_snake_keys_witness :
  map_get "post_balance" (fixReward DemoFront.reward1) = None /\
  map_get "reward_type" (fixReward DemoFront.reward1) = None /\
  NoDup (keys (fixReward DemoFront.reward1)).
Proof.
  apply (@fixReward_drops_snake_keys demo DemoFront.reward1).
  cbn. repeat constructor; cbn; intuition discriminate.
Defined.

(** X18, on the demo archive: the rewards of slot 8. *)
Lemma getBlock_rewards_of_reply_witness :
  exists (params : GetBlockRequest.t) (block : Block.t),
    parseGetBlockRequest (Request.Params (getBlockRequest [JNumber 8]))
    = Ret (Some params, None) /\
    GetBlock (GetBlockRequest.Slot params) = Ok block /\
    (Block.Rewards block = DummyCID ->
     GetBlockResponse.Rewards (response1 1700000003 1 "h1" rewards8) = JNull) /\
    (GetBlockResponse.Rewards (response1 1700000003 1 "h1" rewards8) = JNull \/
     exists (node : Rewards.t) (buf uncompressed : bytes) (actualRewards : ParsedRewards)
            (doc : RawMessage) (m : jmap) (maps : list jmap),
       GetRewardsByCid (Block.Rewards block) = Ok node /\
       reassemble GetDataFrameByCid (Rewards.Data node) = Ok buf /\
       decompressZstd buf = Ok uncompressed /\
       ParseRewards uncompressed = Ok actualRewards /\
       json_Marshal actualRewards = Ok doc /\
       json_Unmarshal_map doc = Ok m /\
       map_get "rewards" m = Some (JArray (map JObject maps)) /\
       GetBlockResponse.Rewards (response1 1700000003 1 "h1" rewards8)
       = JArray (map (fun rewardAsMap => JObject (fixReward rewardAsMap)) maps)).
Proof.
  exact (@getBlock_rewards_of_reply demo (getBlockRequest [JNumber 8])
           (response1 1700000003 1 "h1" rewards8) eq_refl).
Defined.

(** X19, on the demo archive: the head that links one frame. *)
Lemma reassemble_length_witness :
  exists frames : list DataFrame.t,
    Forall2 (fun cid frame => GetDataFrameByCid cid = Ok frame)
      (if DataFrame.Total shortHead >? 1 then DataFrame.Next shortHead else []) frames /\
    [Byte.x0a; Byte.x0b] = DataFrame.Data shortHead ++ List.concat (map DataFrame.Data frames) /\
    len [Byte.x0a; Byte.x0b]
    = len (DataFrame.Data shortHead)
      + fold_right Z.add 0 (map (fun frame => len (DataFrame.Data frame)) frames).
Proof.
  exact (@reassemble_length GetDataFrameByCid shortHead [Byte.x0a; Byte.x0b] eq_refl).
Defined.

(** X21, on the second archive: a transaction with metadata that
    decompresses and parses. *)
Lemma parseTransactionAndMetaFromNode_metadata_witness :
  exists meta : option string,
    @parseTransactionAndMetaFromNode DemoFront.front DemoFront.txWithMeta
      (@GetDataFrameByCid DemoFront.front) = (1, meta, None) /\
    (forall status, meta = Some status <->
                    [Byte.x4d] <> [] /\
                    exists uncompressedMeta,
                      @decompressZstd DemoFront.front [Byte.x4d] = Ok uncompressedMeta /\
                      @ParseAnyTransactionStatusMeta DemoFront.front uncompressedMeta
                      = Ok status).
Proof.
  apply (@parseTransactionAndMetaFromNode_metadata DemoFront.front DemoFront.txWithMeta
           (@GetDataFrameByCid DemoFront.front) [Byte.x0a] [Byte.x4d] 1).
  - reflexivity.
  - reflexivity.
  - discriminate.
  - reflexivity.
Defined.






(** X24, on the command line of the demo: no argument, and three. *)
Lemma Action_missing_argument_witness :
  DemoFront.action ":8899" [] = Some (cli_Exit "Must provide a CAR filepath" 1) /\
  DemoFront.action ":8899" ["ledger.car"; "cid.idx"; "slot.idx"]
  = Some (cli_Exit "Must provide a signature-to-CID index filepath" 1).
Proof.
  split.
  - apply (Action_missing_argument DemoFront.openReader DemoFront.openFile
             DemoFront.openIndex DemoFront.openIndex DemoFront.serve ":8899" []).
    reflexivity.
  - apply (Action_missing_argument DemoFront.openReader DemoFront.openFile
             DemoFront.openIndex DemoFront.openIndex DemoFront.serve ":8899"
             ["ledger.car"; "cid.idx"; "slot.idx"]); (discriminate || reflexivity).
Defined.

(** X25, on the command line of the demo: four files that open. *)
Lemma Action_starts_server_witness :
  DemoFront.action ":8899" ["ledger.car"; "cid.idx"; "slot.idx"; "sig.idx"]
  = option_map otherError
      (DemoFront.serve ":8899" "ledger.car" "cid.idx" "slot.idx" "sig.idx").
Proof.
  apply (Action_starts_server DemoFront.openReader DemoFront.openFile
           DemoFront.openIndex DemoFront.openIndex DemoFront.serve ":8899"
           ["ledger.car"; "cid.idx"; "slot.idx"; "sig.idx"]).
  exists "ledger.car", "cid.idx", "slot.idx", "sig.idx", "cid.idx", "slot.idx", "sig.idx".
  repeat split; discriminate.
Defined.

(** X26, on the command line of the demo: a slot index that is not an
    index. *)
Lemma Action_open_failure_witness :
  exists err,
    DemoFront.action ":8899" ["ledger.car"; "cid.idx"; "broken.idx"; "sig.idx"]
    = Some (otherError err) /\
    prefix "failed to open" err = true.
Proof.
  apply (Action_open_failure DemoFront.openReader DemoFront.openFile
           DemoFront.openIndex DemoFront.openIndex DemoFront.serve ":8899"
           ["ledger.car"; "cid.idx"; "broken.idx"; "sig.idx"]);
    try discriminate.
  right. right. right. exists 2%nat, "broken.idx", "bad magic".
  repeat split; lia.
Defined.

(** X28, on the demo archive: the block of slot 1. *)
Lemma getBlock_replies_witness :
  exists resp, getBlock (getBlockRequest [JNumber 1]) = Replied resp.
Proof.
  apply (@getBlock_replies demo (getBlockRequest [JNumber 1]) (GetBlockRequest.mk 1)
           (Block.mk 1 ["entry1"] (SlotMeta.mk 0 (-1)) dummy)).
  - reflexivity.
  - reflexivity.
  - intros c [<-|[]]. now exists entry1.
  - reflexivity.
  - intros node [<-|[]]. now exists 1, None, "AQID".
  - reflexivity.
Defined.
